(** * ODM processor: extraction core of [appy.py]

    A shallow embedding of the extraction logic (value normalisation,
    namespace resolution, tolerant element search, the site/form map and the
    two table extractors) together with the properties the specification
    states about it.

    Python strings are modelled as [string], the bytes of their UTF-8
    encoding.  The helpers of [PyStr] give the action of the [str] methods
    on strings of ASCII characters, which is where the literals compared
    against live; the value normaliser takes the methods themselves as a
    parameter, and the table extractors use them at their ASCII instance.
    Byte-wise lexicographic order on UTF-8 coincides with Python's
    code-point order used by [sorted]. *)

From Stdlib Require Import Ascii String List Bool Arith Lia.
From stdpp Require Import base decidable option list sorting gmap strings fin_maps fin_sets.
Import ListNotations.
Open Scope string_scope.
Open Scope list_scope.

(** ** Python [str] helpers *)

Module PyStr.

(** [str.lower] / [str.upper] on one ASCII character; any other byte is
    kept. *)
Definition lower_ascii (c : ascii) : ascii :=
  let n := nat_of_ascii c in
  if (65 <=? n)%nat && (n <=? 90)%nat then ascii_of_nat (n + 32) else c.

Definition upper_ascii (c : ascii) : ascii :=
  let n := nat_of_ascii c in
  if (97 <=? n)%nat && (n <=? 122)%nat then ascii_of_nat (n - 32) else c.

Fixpoint lower (s : string) : string :=
  match s with
  | EmptyString => EmptyString
  | String c s' => String (lower_ascii c) (lower s')
  end.

Fixpoint upper (s : string) : string :=
  match s with
  | EmptyString => EmptyString
  | String c s' => String (upper_ascii c) (upper s')
  end.

(** The ASCII characters removed by [str.strip()] with no argument: TAB, LF,
    VT, FF, CR, the four separators FS..US and the space. *)
Definition is_space (c : ascii) : bool :=
  let n := nat_of_ascii c in
  ((9 <=? n)%nat && (n <=? 13)%nat) || ((28 <=? n)%nat && (n <=? 32)%nat).

Fixpoint lstrip (s : string) : string :=
  match s with
  | EmptyString => EmptyString
  | String c s' => if is_space c then lstrip s' else s
  end.

Definition rstrip (s : string) : string := String.rev (lstrip (String.rev s)).

Definition strip (s : string) : string := rstrip (lstrip s).

(** [s.startswith(p)]. *)
Fixpoint startswith (p s : string) : bool :=
  match p, s with
  | EmptyString, _ => true
  | String a p', String b s' => if Ascii.eqb a b then startswith p' s' else false
  | String _ _, EmptyString => false
  end.

(** [needle in hay]. *)
Fixpoint contains (needle hay : string) : bool :=
  startswith needle hay ||
  match hay with
  | EmptyString => false
  | String _ hay' => contains needle hay'
  end.

(** [s.endswith(p)]: [p] is [s] itself or a suffix of its tail. *)
Fixpoint endswith (p s : string) : bool :=
  String.eqb p s ||
  match s with
  | EmptyString => false
  | String _ s' => endswith p s'
  end.

(** [s.split(sep)[0]] for a one-character separator. *)
Fixpoint split_head (sep : ascii) (s : string) : string :=
  match s with
  | EmptyString => EmptyString
  | String c s' => if Ascii.eqb c sep then EmptyString else String c (split_head sep s')
  end.

(** [s[1:]]. *)
Definition drop1 (s : string) : string :=
  match s with
  | EmptyString => EmptyString
  | String _ s' => s'
  end.

(** [sep.join(l)]. *)
Fixpoint join (sep : string) (l : list string) : string :=
  match l with
  | [] => ""
  | [x] => x
  | x :: l' => x +:+ sep +:+ join sep l'
  end.

(** [sorted(xs)] on strings. *)
Definition sorted (l : list string) : list string := merge_sort String.le l.

(** Truthiness of a string. *)
Definition truthy (s : string) : bool :=
  match s with EmptyString => false | _ => true end.

End PyStr.

(** ** The case and whitespace methods of [str]

    [str.strip], [str.lower] and [str.upper] belong to the language and act
    on all of Unicode: [strip] also removes U+0085, U+00A0 and the other
    Unicode spaces, and the case maps follow the Unicode tables.  The value
    normaliser takes the three methods as a parameter.  What is relied on is
    their action on a string of ASCII characters, which is that of the
    helpers above. *)

Record str_methods : Type :=
  { str_strip : string → string;
    str_lower : string → string;
    str_upper : string → string }.

Definition is_ascii_char (c : ascii) : bool := (nat_of_ascii c <? 128)%nat.

Fixpoint is_ascii (s : string) : bool :=
  match s with
  | EmptyString => true
  | String c s' => is_ascii_char c && is_ascii s'
  end.

Definition ascii_faithful (m : str_methods) : Prop :=
  (∀ s, is_ascii s = true → str_strip m s = PyStr.strip s)
  ∧ (∀ s, is_ascii s = true → str_lower m s = PyStr.lower s)
  ∧ (∀ s, is_ascii s = true → str_upper m s = PyStr.upper s).

(** The methods cut down to ASCII: every byte outside the ASCII range is
    kept as it is. *)
Definition ascii_methods : str_methods :=
  {| str_strip := PyStr.strip; str_lower := PyStr.lower; str_upper := PyStr.upper |}.

(** ** Value normaliser *)

Definition MONITORING_COLUMNS : list string := ["SDV"; "Medical Review"; "Data Review"].
Definition IGNORED_SITE : string := "REDCap Cloud Demo".

Definition yes_words : list string := ["yes"; "true"; "1"; "y"].
Definition no_words : list string := ["no"; "false"; "0"; "n"].

(** [to_yes_no] and [is_true_value], over the methods of [str]. *)
Definition to_yes_no_with (m : str_methods) (value : option string) : string :=
  match value with
  | None => "N"
  | Some v =>
      let value_str := str_lower m (str_strip m v) in
      if bool_decide (value_str ∈ yes_words) then "Y"
      else if bool_decide (value_str ∈ no_words) then "N"
      else if negb (PyStr.truthy value_str) then "N" else str_upper m value_str
  end.

Definition is_true_value_with (m : str_methods) (value : option string) : bool :=
  match value with
  | None => false
  | Some v =>
      let value_str := str_lower m (str_strip m v) in
      bool_decide (value_str ∈ yes_words ++ ["dynamic"; "created by rule"])
  end.

(** The two functions as the table extractors below call them: with the
    methods at their ASCII instance, which gives the cells of a document
    whose attribute values are ASCII. *)
Definition to_yes_no (value : option string) : string :=
  to_yes_no_with ascii_methods value.

Definition is_true_value (value : option string) : bool :=
  is_true_value_with ascii_methods value.

(** ** Element trees ([xml.etree.ElementTree.Element]) *)

#[warnings="-register-all"]
Inductive Element : Type :=
  Elem { tag : string; attrib : list (string * string); children : list Element }.

(** Python dictionaries whose insertion order is observable are association
    lists with unique keys. *)
Fixpoint dict_get {V : Type} (k : string) (d : list (string * V)) : option V :=
  match d with
  | [] => None
  | (k', v) :: d' => if String.eqb k k' then Some v else dict_get k d'
  end.

Fixpoint dict_set {V : Type} (d : list (string * V)) (k : string) (v : V) : list (string * V) :=
  match d with
  | [] => [(k, v)]
  | (k', v') :: d' => if String.eqb k k' then (k', v) :: d' else (k', v') :: dict_set d' k v
  end.

(** [element.get(key, default)]. *)
Definition get (e : Element) (key default : string) : string :=
  from_option id default (dict_get key (attrib e)).

(** [element.iter()]: the element and all its descendants, document order. *)
Fixpoint iter (e : Element) : list Element :=
  e :: flat_map iter (children e).

Definition descendants (e : Element) : list Element := flat_map iter (children e).

(** The tag a path step [{uri}local] stands for. *)
Definition qname (uri local : string) : string := "{" +:+ uri +:+ "}" +:+ local.

(** A namespace URI that can be spliced into a path expression as
    [{uri}local] without changing what the expression means: it is not
    empty, holds no closing brace and is not the wildcard.  The URI read off
    the root tag and the two defaults are of this kind; one taken from a
    root attribute need not be. *)
Definition plain_uri (uri : string) : bool :=
  PyStr.truthy uri && negb (PyStr.contains "}" uri) && negb (String.eqb uri "*").

(** [e.findall('.//NAME')] and [e.findall('NAME')], for a name step
    [{uri}local] or [local] that ElementPath compiles to an exact test on the
    tag, which it does for every [plain_uri].  For any other URI the library
    reads part of it as path syntax, and the search may raise or select
    other elements; the properties that speak of the tags found are stated
    for plain URIs. *)
Definition findall_descendants (e : Element) (name : string) : list Element :=
  filter (λ x, tag x = name) (descendants e).

Definition findall_children (e : Element) (name : string) : list Element :=
  filter (λ x, tag x = name) (children e).

(** ** Namespace resolver

    The resolver lower-cases a URI only to look for the words "odm",
    "cdisc" and "redcap" in it.  No character outside ASCII is lower-cased
    to a letter of these words next to its neighbour in the word (U+0130
    gives an i followed by a combining dot, U+212A a k), so the ASCII
    helper decides these tests as [str.lower] does. *)

(** The dictionary [{'odm': ..., 'REDCap': ...}]: built in one place, with
    exactly these two keys, and never mutated. *)
Record NamespaceMap : Type := { odm : string; REDCap : string }.

(** The tag a path step [odm:local] or [REDCap:local] stands for once
    ElementPath has resolved the prefix through the dictionary. *)
Definition odm_prefixed (namespaces : NamespaceMap) (local : string) : string :=
  qname (odm namespaces) local.

Definition REDCap_prefixed (namespaces : NamespaceMap) (local : string) : string :=
  qname (REDCap namespaces) local.

Definition DEFAULT_ODM_NS : string := "http://www.cdisc.org/ns/odm/v1.3".
Definition DEFAULT_REDCAP_NS : string := "https://www.redcapcloud.com/ns/odm_ext_v132/v10".

Definition get_namespace_map (root : Element) : NamespaceMap :=
  let odm_ns := DEFAULT_ODM_NS in
  let redcap_ns := DEFAULT_REDCAP_NS in
  let odm_ns :=
    if PyStr.contains "}" (tag root) then
      let ns_uri := PyStr.drop1 (PyStr.split_head "}" (tag root)) in
      if PyStr.contains "odm" (PyStr.lower ns_uri) then ns_uri else odm_ns
    else odm_ns in
  let '(odm_ns, redcap_ns) :=
    fold_left
      (λ '(odm_ns, redcap_ns) '(attr, value),
         if PyStr.contains "xmlns" attr then
           let odm_ns :=
             if PyStr.contains "odm" (PyStr.lower value)
                && PyStr.contains "cdisc" (PyStr.lower value)
             then value else odm_ns in
           let redcap_ns :=
             if PyStr.contains "redcap" (PyStr.lower value) then value else redcap_ns in
           (odm_ns, redcap_ns)
         else (odm_ns, redcap_ns))
      (attrib root) (odm_ns, redcap_ns) in
  {| odm := odm_ns; REDCap := redcap_ns |}.

(** ** Tolerant element finder *)

Definition nonempty {A : Type} (l : list A) : bool :=
  match l with [] => false | _ => true end.

Definition find_elements_once (root : Element) (tag_name : string)
    (namespaces : NamespaceMap) : list Element :=
  let ns_uri := odm namespaces in
  let elements := findall_descendants root (qname ns_uri tag_name) in
  if nonempty elements then elements else
  let elements := findall_descendants root (odm_prefixed namespaces tag_name) in
  if nonempty elements then elements else
  findall_descendants root tag_name.

Definition get_redcap_attr (element : Element) (attr_name : string)
    (namespaces : NamespaceMap) : string :=
  let ns_uri := REDCap namespaces in
  let value := get element (qname ns_uri attr_name) "" in
  if PyStr.truthy value then value else get element attr_name "".

(** ** Site/form map builder *)

Record SiteInfo : Type := { site_oid : string; forms : gset string }.

(** The non-empty values of attribute [key] over a list of elements, added to
    a set. *)
Definition collect_attr (key : string) (elems : list Element) (acc : gset string) : gset string :=
  fold_left
    (λ acc e, let v := get e key "" in if PyStr.truthy v then acc ∪ {[v]} else acc)
    elems acc.

(** The form OIDs one metadata-version element declares (body of the loop,
    the two inline three-tier searches). *)
Definition mv_form_oids (mv : Element) (namespaces : NamespaceMap) : gset string :=
  let form_oids : gset string := ∅ in
  let form_defs := findall_descendants mv (qname (odm namespaces) "FormDef") in
  let form_defs :=
    if nonempty form_defs then form_defs
    else findall_descendants mv (odm_prefixed namespaces "FormDef") in
  let form_defs :=
    if nonempty form_defs then form_defs else findall_descendants mv "FormDef" in
  let form_oids := collect_attr "OID" form_defs form_oids in
  let form_refs := findall_descendants mv (qname (odm namespaces) "FormRef") in
  let form_refs :=
    if nonempty form_refs then form_refs
    else findall_descendants mv (odm_prefixed namespaces "FormRef") in
  let form_refs :=
    if nonempty form_refs then form_refs else findall_descendants mv "FormRef" in
  collect_attr "FormOID" form_refs form_oids.

Definition mv_site_name (mv : Element) : string :=
  let mv_oid := get mv "OID" "" in
  let site_name := get mv "Name" "" in
  if negb (PyStr.truthy site_name) then mv_oid else site_name.

Definition metadata_versions_step (namespaces : NamespaceMap)
    (site_forms_map : gmap string SiteInfo) (mv : Element) : gmap string SiteInfo :=
  let mv_oid := get mv "OID" "" in
  let site_name := mv_site_name mv in
  if bool_decide (site_name = IGNORED_SITE) then site_forms_map else
  let form_oids := mv_form_oids mv namespaces in
  match site_forms_map !! site_name with
  | Some info =>
      <[site_name := {| site_oid := site_oid info; forms := forms info ∪ form_oids |}]>
        site_forms_map
  | None => <[site_name := {| site_oid := mv_oid; forms := form_oids |}]> site_forms_map
  end.

Definition extract_metadata_versions (root : Element) (namespaces : NamespaceMap)
    : gmap string SiteInfo :=
  let metadata_versions := find_elements_once root "MetaDataVersion" namespaces in
  if negb (nonempty metadata_versions) then ∅ else
  fold_left (metadata_versions_step namespaces) metadata_versions ∅.

(** ** Tables ([pandas.DataFrame]) *)

(** A row dictionary: column name to cell, in insertion order. *)
Definition Record_ : Type := list (string * string).

(** A frame is its column index and its rows; a cell a row's dictionary lacks
    is [None] (pandas' NaN). *)
Record DataFrame : Type := { columns : list string; rows : list (list (option string)) }.

(** [pd.DataFrame()]. *)
Definition DataFrame_empty : DataFrame := {| columns := []; rows := [] |}.

(** [pd.DataFrame(columns=cols)]. *)
Definition DataFrame_of_columns (cols : list string) : DataFrame :=
  {| columns := cols; rows := [] |}.

(** Column index of a list of row dictionaries: keys by first appearance. *)
Definition add_key (acc : list string) (k : string) : list string :=
  if bool_decide (k ∈ acc) then acc else acc ++ [k].

Definition records_columns (records : list Record_) : list string :=
  fold_left (λ acc r, fold_left add_key (map fst r) acc) records [].

(** [pd.DataFrame(records)]. *)
Definition DataFrame_of_records (records : list Record_) : DataFrame :=
  let cols := records_columns records in
  {| columns := cols; rows := map (λ r, map (λ c, dict_get c r) cols) records |}.

(** [df.empty]. *)
Definition df_empty (df : DataFrame) : bool :=
  negb (nonempty (columns df)) || negb (nonempty (rows df)).

(** The cell of [row] under column [col]. *)
Definition df_cell (df : DataFrame) (row : list (option string)) (col : string)
    : option string :=
  '(i, _) ← list_find (λ c, c = col) (columns df);
  mjoin (row !! i).

(** [df[cols]] for columns that are all present. *)
Definition df_select (df : DataFrame) (cols : list string) : DataFrame :=
  {| columns := cols; rows := map (λ r, map (df_cell df r) cols) (rows df) |}.

(** ** Event definition extractor *)

Definition event_info (event : Element) (namespaces : NamespaceMap) : Record_ :=
  let dynamic_event := get_redcap_attr event "DynamicEvent" namespaces in
  let created_by_rule := get_redcap_attr event "CreatedByRule" namespaces in
  let dynamic_created_by_rule :=
    if is_true_value (Some dynamic_event) || is_true_value (Some created_by_rule)
    then "Y" else "N" in
  [ ("Unique Event Name", get_redcap_attr event "UniqueEventName" namespaces);
    ("Name", get event "Name" "");
    ("Manual Scheduling",
       to_yes_no (Some (get_redcap_attr event "AllowManualSchedule" namespaces)));
    ("Repeating", to_yes_no (Some (get event "Repeating" "")));
    ("Dynamic/Created by Rule", dynamic_created_by_rule) ].

(** One iteration of the loop over [study_event_defs]; the state is
    [(event_definitions, seen_oids)]. *)
Definition event_definitions_step (namespaces : NamespaceMap)
    (st : list Record_ * gset string) (event : Element) : list Record_ * gset string :=
  let '(event_definitions, seen_oids) := st in
  let oid := get event "OID" "" in
  if negb (PyStr.truthy oid) || bool_decide (oid ∈ seen_oids) then st else
  (event_definitions ++ [event_info event namespaces], seen_oids ∪ {[oid]}).

Definition event_definition_records (root : Element) (namespaces : NamespaceMap)
    : list Record_ :=
  fst (fold_left (event_definitions_step namespaces)
         (find_elements_once root "StudyEventDef" namespaces) ([], ∅)).

Definition extract_event_definitions (root : Element) (namespaces : NamespaceMap)
    : DataFrame :=
  let study_event_defs := find_elements_once root "StudyEventDef" namespaces in
  if negb (nonempty study_event_defs) then DataFrame_empty else
  DataFrame_of_records (event_definition_records root namespaces).

(** ** Event instrument extractor *)

(** The [form_oid_to_name] dictionary: first definition of an OID wins. *)
Definition form_names_step (st : gmap string string * gset string) (form : Element)
    : gmap string string * gset string :=
  let '(form_oid_to_name, seen_form_oids) := st in
  let oid := get form "OID" "" in
  if PyStr.truthy oid && negb (bool_decide (oid ∈ seen_form_oids))
  then (<[oid := get form "Name" ""]> form_oid_to_name, seen_form_oids ∪ {[oid]})
  else st.

Definition build_form_names (form_defs : list Element) : gmap string string :=
  fst (fold_left form_names_step form_defs (∅, ∅)).

(** The form references of one event element. *)
Definition locate_form_refs (event : Element) (namespaces : NamespaceMap) : list Element :=
  let form_refs : list Element := [] in
  let redcap_ns := REDCap namespaces in
  let form_refs :=
    if PyStr.truthy (odm namespaces)
    then findall_children event (odm_prefixed namespaces "FormRef")
    else form_refs in
  let form_refs :=
    if negb (nonempty form_refs) && PyStr.truthy redcap_ns
    then findall_children event "FormRef"
    else form_refs in
  if negb (nonempty form_refs)
  then form_refs ++
       filter (λ child, PyStr.contains "FormRef" (tag child)
                        || PyStr.endswith "FormRef" (tag child) = true)
         (children event)
  else form_refs.

(** The sites whose form set holds [form_oid]. *)
Definition form_sites_of (site_forms_map : gmap string SiteInfo) (form_oid : string)
    : gset string :=
  if (size site_forms_map =? 0)%nat then ∅ else
  map_fold
    (λ site_name info (form_sites : gset string),
       if bool_decide (form_oid ∈ forms info) then form_sites ∪ {[site_name]}
       else form_sites)
    ∅ site_forms_map.

Definition site_display (form_sites all_valid_sites : gset string) : string :=
  if bool_decide (form_sites = ∅) then "Unknown Site"
  else if bool_decide (form_sites = all_valid_sites) then "All sites"
  else PyStr.join ", " (PyStr.sorted (elements form_sites)).

(** The monitoring elements searched for under one form reference. *)
Definition monitoring_elems (form_ref : Element) (namespaces : NamespaceMap)
    : list Element :=
  let redcap_ns := REDCap namespaces in
  if PyStr.truthy redcap_ns then
    let elems := findall_descendants form_ref (qname redcap_ns "Monitoring") in
    let elems :=
      if negb (nonempty elems)
      then findall_descendants form_ref (REDCap_prefixed namespaces "Monitoring")
      else elems in
    if negb (nonempty elems)
    then elems ++ filter (λ child, PyStr.contains "Monitoring" (tag child) = true)
                    (children form_ref)
    else elems
  else [].

Definition monitoring_types_present (form_ref : Element) (namespaces : NamespaceMap)
    : gset string :=
  collect_attr "Type" (monitoring_elems form_ref namespaces) ∅.

Definition instrument_record (namespaces : NamespaceMap)
    (site_forms_map : gmap string SiteInfo) (form_oid_to_name : gmap string string)
    (event form_ref : Element) : Record_ :=
  let event_name := get event "Name" "" in
  let form_oid := get form_ref "FormOID" "" in
  let all_valid_sites : gset string := dom site_forms_map in
  let form_sites := form_sites_of site_forms_map form_oid in
  let types := monitoring_types_present form_ref namespaces in
  let record : Record_ :=
    [ ("Event", event_name);
      ("Instrument Name", from_option id "" (form_oid_to_name !! form_oid));
      ("Version", get_redcap_attr form_ref "DefaultVersion" namespaces);
      ("Site", site_display form_sites all_valid_sites);
      ("Repeating", to_yes_no (Some (get_redcap_attr form_ref "Repeating" namespaces)));
      ("Dynamic", to_yes_no (Some (get_redcap_attr form_ref "DynamicForm" namespaces)));
      ("Required", to_yes_no (Some (get form_ref "Mandatory" ""))) ] in
  fold_left
    (λ record col, dict_set record col (if bool_decide (col ∈ types) then "Y" else "N"))
    MONITORING_COLUMNS record.

Section InstrumentLoop.
Variable namespaces : NamespaceMap.
Variable site_forms_map : gmap string SiteInfo.
Variable form_oid_to_name : gmap string string.

(** One iteration of the inner loop; the state is
    [(event_instruments, seen_event_form_combos)]. *)
Definition instruments_ref_step (event : Element)
    (st : list Record_ * gset (string * string)) (form_ref : Element)
    : list Record_ * gset (string * string) :=
  let '(event_instruments, seen_event_form_combos) := st in
  let form_oid := get form_ref "FormOID" "" in
  let combo_key := (get event "OID" "", form_oid) in
  if negb (PyStr.truthy form_oid) || bool_decide (combo_key ∈ seen_event_form_combos)
  then st
  else (event_instruments
          ++ [instrument_record namespaces site_forms_map form_oid_to_name event form_ref],
        seen_event_form_combos ∪ {[combo_key]}).

Definition instruments_event_step (st : list Record_ * gset (string * string))
    (event : Element) : list Record_ * gset (string * string) :=
  fold_left (instruments_ref_step event) (locate_form_refs event namespaces) st.
End InstrumentLoop.

Definition event_instrument_records (root : Element) (namespaces : NamespaceMap)
    : list Record_ :=
  let study_event_defs := find_elements_once root "StudyEventDef" namespaces in
  let form_defs := find_elements_once root "FormDef" namespaces in
  let site_forms_map := extract_metadata_versions root namespaces in
  let form_oid_to_name := build_form_names form_defs in
  fst (fold_left (instruments_event_step namespaces site_forms_map form_oid_to_name)
         study_event_defs ([], ∅)).

Definition INSTRUMENT_COLUMNS : list string :=
  ["Event"; "Instrument Name"; "Version"; "Site"; "Repeating"; "Dynamic"; "Required"]
    ++ MONITORING_COLUMNS.

Definition extract_event_instruments (root : Element) (namespaces : NamespaceMap)
    : DataFrame :=
  let study_event_defs := find_elements_once root "StudyEventDef" namespaces in
  if negb (nonempty study_event_defs) then DataFrame_empty else
  let df := DataFrame_of_records (event_instrument_records root namespaces) in
  if df_empty df then DataFrame_of_columns INSTRUMENT_COLUMNS else
  let final_cols := INSTRUMENT_COLUMNS in
  let final_cols := filter (λ c, c ∈ columns df) final_cols in
  df_select df final_cols.

(** ** Entry point *)

(** The exceptions the body of [process_odm_content] can end with, each with
    its [str(e)]: [ET.ParseError], or any other instance of [Exception]. *)
Inductive exn : Type :=
  | ParseError (msg : string)
  | OtherException (msg : string).

Inductive result (A : Type) : Type :=
  | Return (a : A)
  | Raise (e : exn).
Arguments Return {A} a.
Arguments Raise {A} e.

Global Instance result_ret : MRet result := @Return.
Global Instance result_bind : MBind result :=
  λ A B k c, match c with
             | Return a => k a
             | Raise e => Raise e
             end.

(** [try: body except ...: handler]. *)
Definition try_except {A : Type} (body : result A) (handler : exn → result A) : result A :=
  match body with
  | Return a => Return a
  | Raise e => handler e
  end.

Definition Outcome : Type := option DataFrame * option DataFrame * option string.

(** The two [except] clauses of [process_odm_content], tried in order. *)
Definition except_clauses (e : exn) : result Outcome :=
  match e with
  | ParseError msg => Return (None, None, Some ("XML Parse Error: " +:+ msg))
  | OtherException msg => Return (None, None, Some ("Error: " +:+ msg))
  end.

Section Process.
(** [ET.fromstring]: the parser of the XML library, on the uploaded bytes. *)
Variable fromstring : list Byte.byte → result Element.

(** The path compiler of the XML library: the exception, if any, with which
    the element searches of the two extractors end on this tree, the
    resolved URIs spliced into their path expressions. *)
Variable search_error : Element → NamespaceMap → option exn.

(** The two extractor calls, which end with the exception of a search or
    give the two tables. *)
Definition extract_tables (root : Element) (namespaces : NamespaceMap)
    : result (DataFrame * DataFrame) :=
  match search_error root namespaces with
  | Some e => Raise e
  | None =>
      Return (extract_event_definitions root namespaces,
              extract_event_instruments root namespaces)
  end.

Definition process_odm_content (xml_content : list Byte.byte) : result Outcome :=
  try_except
    (root ← fromstring xml_content;
     let namespaces := get_namespace_map root in
     '(df_events, df_instruments) ← extract_tables root namespaces;
     mret (Some df_events, Some df_instruments, None))
    except_clauses.
End Process.

(** * Specification-side definitions *)

(** ** Deduplicating loops

    Both extractors run the same loop shape: walk a sequence, skip an item
    whose key is empty or already in the [seen] set, otherwise emit a row and
    record the key.  [first_occurrences] is the sequence of items such a loop
    emits for. *)

Section DedupLoop.
Context {A K R : Type} `{Countable K}.
Variable key : A → K.
Variable skip : A → bool.
Variable emit : A → R.

Definition dedup_step (st : list R * gset K) (x : A) : list R * gset K :=
  if skip x || bool_decide (key x ∈ st.2) then st
  else (st.1 ++ [emit x], st.2 ∪ {[key x]}).

Fixpoint first_occurrences (seen : gset K) (l : list A) : list A :=
  match l with
  | [] => []
  | x :: l' =>
      if skip x || bool_decide (key x ∈ seen) then first_occurrences seen l'
      else x :: first_occurrences (seen ∪ {[key x]}) l'
  end.

(** [x] sits in [l] with no earlier item of the same key. *)
Definition is_first_occurrence (l : list A) (x : A) : Prop :=
  ∃ l1 l2, l = l1 ++ x :: l2 ∧ ∀ y, y ∈ l1 → key y ≠ key x.
End DedupLoop.

(** ** The rows of the two tables *)

Definition row_of_record (r : Record_) : list (option string) :=
  map (λ kv, Some kv.2) r.

Definition event_oid (e : Element) : string := get e "OID" "".

Definition oid_missing (e : Element) : bool := negb (PyStr.truthy (event_oid e)).

(** The event-definition elements a row is emitted for. *)
Definition kept_events (root : Element) (namespaces : NamespaceMap) : list Element :=
  first_occurrences event_oid oid_missing ∅
    (find_elements_once root "StudyEventDef" namespaces).

(** Every (event, form reference) pair the instrument extractor visits, in
    the order it visits them. *)
Definition candidate_pairs (root : Element) (namespaces : NamespaceMap)
    : list (Element * Element) :=
  flat_map (λ event, map (pair event) (locate_form_refs event namespaces))
    (find_elements_once root "StudyEventDef" namespaces).

Definition combo_key (p : Element * Element) : string * string :=
  (get p.1 "OID" "", get p.2 "FormOID" "").

Definition form_oid_missing (p : Element * Element) : bool :=
  negb (PyStr.truthy (get p.2 "FormOID" "")).

(** The pairs a row is emitted for. *)
Definition kept_pairs (root : Element) (namespaces : NamespaceMap)
    : list (Element * Element) :=
  first_occurrences combo_key form_oid_missing ∅ (candidate_pairs root namespaces).

(** The row dictionary of a pair, with the document-wide lookups in place. *)
Definition pair_record (root : Element) (namespaces : NamespaceMap)
    (p : Element * Element) : Record_ :=
  instrument_record namespaces (extract_metadata_versions root namespaces)
    (build_form_names (find_elements_once root "FormDef" namespaces)) p.1 p.2.

Definition EVENT_COLUMNS : list string :=
  ["Unique Event Name"; "Name"; "Manual Scheduling"; "Repeating"; "Dynamic/Created by Rule"].

(** The children of an event whose tag contains "FormRef". *)
Definition lookalike_children (event : Element) : list Element :=
  filter (λ child, PyStr.contains "FormRef" (tag child) = true) (children event).

(** The union of the form sets of the metadata-version elements that carry
    display name [name]. *)
Definition site_union (namespaces : NamespaceMap) (name : string) (mvs : list Element)
    : gset string :=
  ⋃ (map (λ mv, mv_form_oids mv namespaces) (filter (λ mv, mv_site_name mv = name) mvs)).

Definition flag (present : bool) : string := if present then "Y" else "N".

(** ** The specification's wording of two searches *)

(** The search the specification words describe: the three tiers of the
    element finder, then the children whose tag ends with "FormRef". *)
Definition spec_locate_form_refs (event : Element) (namespaces : NamespaceMap)
    : list Element :=
  let found := find_elements_once event "FormRef" namespaces in
  if nonempty found then found
  else filter (λ child, PyStr.endswith "FormRef" (tag child) = true) (children event).

(** The display string the specification words describe, read in the order
    they are written. *)
Definition spec_site_display (form_sites all_valid_sites : gset string) : string :=
  if bool_decide (form_sites = all_valid_sites) then "All sites"
  else if bool_decide (form_sites = ∅) then "Unknown Site"
  else PyStr.join ", " (PyStr.sorted (elements form_sites)).

(** ** Sample documents *)

Module Samples.

Definition form_ref (form_oid mandatory : string) (subs : list Element) : Element :=
  Elem "FormRef" [("FormOID", form_oid); ("Mandatory", mandatory)] subs.

Definition event_def (oid name : string) (subs : list Element) : Element :=
  Elem "StudyEventDef" [("OID", oid); ("Name", name); ("Repeating", "No")] subs.

Definition site (oid name : string) (subs : list Element) : Element :=
  Elem "MetaDataVersion" [("OID", oid); ("Name", name)] subs.

Definition form_def (oid name : string) : Element :=
  Elem "FormDef" [("OID", oid); ("Name", name)] [].

(** Two sites and the demo site; event E1 is defined twice, one event has
    no OID, and form F1 is referenced twice from E1. *)
Definition study : Element :=
  Elem "ODM" []
    [ Elem "Study" [("OID", "S1")]
        [ site "MV1" "Site A"
            [ form_def "F1" "Form One";
              form_def "F2" "Form Two";
              event_def "E1" "Visit 1"
                [ form_ref "F1" "Yes" [Elem "Monitoring" [("Type", "SDV")] []];
                  form_ref "F2" "No" [];
                  form_ref "F1" "No" [] ];
              event_def "E1" "Visit 1 again" [form_ref "F1" "No" []];
              Elem "StudyEventDef" [("Name", "Unkeyed")] [form_ref "F3" "No" []] ];
          site "MV2" "Site B" [form_def "F1" "Form One"];
          site "MV2b" "Site B" [form_def "F3" "Form Three"];
          site "MV3" "REDCap Cloud Demo" [form_def "F2" "Form Two"] ] ].

(** A document without any event definition. *)
Definition no_events : Element := Elem "ODM" [] [Elem "Study" [("OID", "S1")] []].

(** One event with one form reference, and no metadata-version element. *)
Definition no_sites : Element :=
  Elem "ODM" [] [event_def "E1" "Visit 1" [form_ref "F1" "Yes" []]].

(** An event whose only child has a tag that merely contains "FormRef". *)
Definition odd_event : Element :=
  event_def "E1" "Visit 1" [Elem "FormRefGroup" [("FormOID", "F1")] []].

(** An event whose form reference sits one level down, inside a wrapper. *)
Definition nested_event : Element :=
  event_def "E1" "Visit 1" [Elem "Forms" [] [form_ref "F1" "Yes" []]].

Definition ns : NamespaceMap := get_namespace_map study.

(** A well-formed document whose root attribute, named [axmlns], gives a
    core URI with a closing brace. *)
Definition braced_text : string := "<ODM axmlns='urn:odm:cdisc}['/>".

Definition braced_root : Element := Elem "ODM" [("axmlns", "urn:odm:cdisc}[")] [].

(** A stand-in for the XML library on three inputs: the parser rejects the
    empty input, reads [braced_text] as [braced_root] and anything else as
    the sample study.  The searches raise nothing on the sample study; on
    [braced_root] the first of them, for the path
    [.//{urn:odm:cdisc}[}StudyEventDef], ends with the library's
    [TypeError], which the stand-in gives for every URI that is not
    plain. *)
Definition parser (bytes : list Byte.byte) : result Element :=
  match bytes with
  | [] => Raise (ParseError "no element found: line 1, column 0")
  | _ =>
      if String.eqb (string_of_list_byte bytes) braced_text
      then Return braced_root else Return study
  end.

Definition path_compiler (root : Element) (namespaces : NamespaceMap) : option exn :=
  if plain_uri (odm namespaces) && plain_uri (REDCap namespaces) then None
  else Some (OtherException "'NoneType' object is not callable").

(** The Kelvin sign U+212A, which [str.lower] sends to the letter k and
    [str.upper] keeps. *)
Definition kelvin_sign : string :=
  String (ascii_of_nat 226) (String (ascii_of_nat 132) (String (ascii_of_nat 170) "")).

(** The methods of [str] on ASCII strings and on the Kelvin sign. *)
Definition kelvin_methods : str_methods :=
  {| str_strip := PyStr.strip;
     str_lower := λ s, if String.eqb s kelvin_sign then "k" else PyStr.lower s;
     str_upper := PyStr.upper |}.

End Samples.

(** ** The namespace resolver as a fold *)

(** The core URI after the test on the root tag, before the attributes are
    scanned. *)
Definition tag_namespace (root : Element) : string :=
  if PyStr.contains "}" (tag root) then
    let ns_uri := PyStr.drop1 (PyStr.split_head "}" (tag root)) in
    if PyStr.contains "odm" (PyStr.lower ns_uri) then ns_uri else DEFAULT_ODM_NS
  else DEFAULT_ODM_NS.

(** Whether a root attribute sets the core URI, respectively the extension
    URI. *)
Definition odm_signal (item : string * string) : bool :=
  PyStr.contains "xmlns" item.1
  && (PyStr.contains "odm" (PyStr.lower item.2)
      && PyStr.contains "cdisc" (PyStr.lower item.2)).

Definition redcap_signal (item : string * string) : bool :=
  PyStr.contains "xmlns" item.1 && PyStr.contains "redcap" (PyStr.lower item.2).

(** One round of the loop over the root attributes, on the pair
    [(odm_ns, redcap_ns)]. *)
Definition namespace_step (st : string * string) (item : string * string)
    : string * string :=
  (if odm_signal item then item.2 else st.1,
   if redcap_signal item then item.2 else st.2).

(** ** The caller of the entry point

    The page script around [process_odm_content]: the sheets the export
    writes and the name of the download. *)

(** The sheets written by the export, in order: one per table that is not
    [empty]. *)
Definition excel_sheets (df_events df_instruments : DataFrame) : list string :=
  (if negb (df_empty df_events) then ["Event Definitions"] else [])
  ++ (if negb (df_empty df_instruments) then ["Event Instruments"] else []).

(** [s.replace(old, new)] for a non-empty [old]: occurrences are replaced
    from left to right without overlap; [skip] counts the characters of an
    occurrence just replaced that are still to be passed over. *)
Fixpoint replace_from (old new : string) (skip : nat) (s : string) : string :=
  match s with
  | EmptyString => EmptyString
  | String c s' =>
      match skip with
      | S k => replace_from old new k s'
      | O =>
          if PyStr.startswith old s
          then new +:+ replace_from old new (String.length old - 1) s'
          else String c (replace_from old new 0 s')
      end
  end.

Definition str_replace (old new s : string) : string := replace_from old new 0 s.

(** [uploaded_file.name.replace('.xml', '_events.xlsx')]. *)
Definition output_filename (name : string) : string :=
  str_replace ".xml" "_events.xlsx" name.

(** * Properties *)

(** ** Worked examples *)

Example study_event_definitions :
  extract_event_definitions Samples.study Samples.ns
  = {| columns := EVENT_COLUMNS;
       rows := [[Some ""; Some "Visit 1"; Some "N"; Some "N"; Some "N"]] |}.
Proof. vm_compute. reflexivity. Qed.

Example study_event_instruments :
  extract_event_instruments Samples.study Samples.ns
  = {| columns := INSTRUMENT_COLUMNS;
       rows :=
         [ [Some "Visit 1"; Some "Form One"; Some ""; Some "All sites"; Some "N";
            Some "N"; Some "Y"; Some "Y"; Some "N"; Some "N"];
           [Some "Visit 1"; Some "Form Two"; Some ""; Some "Site A"; Some "N";
            Some "N"; Some "N"; Some "N"; Some "N"; Some "N"];
           [Some "Unkeyed"; Some "Form Three"; Some ""; Some "All sites"; Some "N";
            Some "N"; Some "N"; Some "N"; Some "N"; Some "N"] ] |}.
Proof. vm_compute. reflexivity. Qed.

Example namespaces_from_root_tag :
  get_namespace_map
    (Elem "{urn:ODM-variant}ODM" [("axmlns", "https://example.org/REDCAP/ext")] [])
  = {| odm := "urn:ODM-variant"; REDCap := "https://example.org/REDCAP/ext" |}.
Proof. vm_compute. reflexivity. Qed.

Example qualified_tier_wins :
  find_elements_once
    (Elem "{urn:odm}ODM" []
       [ Elem "{urn:odm}StudyEventDef" [("OID", "E1")] [];
         Elem "StudyEventDef" [("OID", "E2")] [] ])
    "StudyEventDef" {| odm := "urn:odm"; REDCap := DEFAULT_REDCAP_NS |}
  = [Elem "{urn:odm}StudyEventDef" [("OID", "E1")] []].
Proof. vm_compute. reflexivity. Qed.

(** The entry point over the stand-in library: a rejected input, the sample
    study, and a document that parses but whose searches raise. *)
Example process_outcomes :
  process_odm_content Samples.parser Samples.path_compiler []
    = Return (None, None,
              Some "XML Parse Error: no element found: line 1, column 0")
  ∧ process_odm_content Samples.parser Samples.path_compiler [Byte.x3c]
    = Return (Some (extract_event_definitions Samples.study Samples.ns),
              Some (extract_event_instruments Samples.study Samples.ns), None)
  ∧ process_odm_content Samples.parser Samples.path_compiler
      (list_byte_of_string Samples.braced_text)
    = Return (None, None, Some "Error: 'NoneType' object is not callable").
Proof. repeat split; vm_compute; reflexivity. Qed.

(** ** Strings *)

Lemma upper_lower_ascii (c : ascii) :
  PyStr.upper_ascii (PyStr.lower_ascii c) = PyStr.upper_ascii c.
Proof. destruct c as [[] [] [] [] [] [] [] []]; reflexivity. Qed.

Lemma upper_lower (s : string) : PyStr.upper (PyStr.lower s) = PyStr.upper s.
Proof.
  induction s as [|c s IH]; simpl; [reflexivity|].
  now rewrite upper_lower_ascii, IH.
Qed.

Lemma lower_empty_inv (s : string) : PyStr.lower s = "" → s = "".
Proof. destruct s; simpl; [reflexivity | discriminate]. Qed.

Lemma truthy_false_iff (s : string) : PyStr.truthy s = false ↔ s = "".
Proof. destruct s; simpl; split; congruence. Qed.

Lemma truthy_true_iff (s : string) : PyStr.truthy s = true ↔ s ≠ "".
Proof. destruct s; simpl; split; congruence. Qed.

(** ** Case and whitespace helpers *)

Lemma lower_upper_ascii (c : ascii) :
  PyStr.lower_ascii (PyStr.upper_ascii c) = PyStr.lower_ascii c.
Proof. destruct c as [[] [] [] [] [] [] [] []]; reflexivity. Qed.

Lemma lower_lower_ascii (c : ascii) :
  PyStr.lower_ascii (PyStr.lower_ascii c) = PyStr.lower_ascii c.
Proof. destruct c as [[] [] [] [] [] [] [] []]; reflexivity. Qed.

Lemma is_space_lower_ascii (c : ascii) :
  PyStr.is_space (PyStr.lower_ascii c) = PyStr.is_space c.
Proof. destruct c as [[] [] [] [] [] [] [] []]; reflexivity. Qed.

Lemma is_space_upper_ascii (c : ascii) :
  PyStr.is_space (PyStr.upper_ascii c) = PyStr.is_space c.
Proof. destruct c as [[] [] [] [] [] [] [] []]; reflexivity. Qed.

Lemma lower_upper (s : string) : PyStr.lower (PyStr.upper s) = PyStr.lower s.
Proof. induction s as [|c s IH]; simpl; [reflexivity|]. now rewrite lower_upper_ascii, IH. Qed.

Lemma lower_lower (s : string) : PyStr.lower (PyStr.lower s) = PyStr.lower s.
Proof. induction s as [|c s IH]; simpl; [reflexivity|]. now rewrite lower_lower_ascii, IH. Qed.

(** The trailing-whitespace trimmer, read from the front: a leading
    character that is not whitespace stays, and a string of whitespace only
    goes. *)
Lemma rev_app_app (s t : string) : String.rev_app s t = String.rev_app s "" +:+ t.
Proof.
  revert t. induction s as [|c s IH]; intros t; simpl; [reflexivity|].
  rewrite (IH (String c t)), (IH (String c "")).
  generalize (String.rev_app s ""). intros r.
  induction r as [|d r IHr]; [reflexivity|].
  change (String d r +:+ String c t = (String d r +:+ String c "") +:+ t).
  change (String d (r +:+ String c t) = String d ((r +:+ String c "") +:+ t)).
  now rewrite IHr.
Qed.

Lemma rev_cons (c : ascii) (s : string) :
  String.rev (String c s) = String.rev s +:+ String c "".
Proof. unfold String.rev. simpl. apply rev_app_app. Qed.

Lemma rev_snoc (c : ascii) (s : string) :
  String.rev (s +:+ String c "") = String c (String.rev s).
Proof.
  induction s as [|d s IH]; [reflexivity|].
  change (String d s +:+ String c "") with (String d (s +:+ String c "")).
  rewrite !rev_cons, IH. reflexivity.
Qed.

Lemma rev_involutive (s : string) : String.rev (String.rev s) = s.
Proof.
  induction s as [|c s IH]; [reflexivity|]. now rewrite rev_cons, rev_snoc, IH.
Qed.

Lemma lstrip_snoc (c : ascii) (s : string) :
  PyStr.is_space c = false →
  PyStr.lstrip (s +:+ String c "") = PyStr.lstrip s +:+ String c "".
Proof.
  intros Hc. induction s as [|d s IH].
  - change (PyStr.lstrip (String c "") = String c ""). simpl. now rewrite Hc.
  - change (String d s +:+ String c "") with (String d (s +:+ String c "")).
    simpl. destruct (PyStr.is_space d); [exact IH | reflexivity].
Qed.

Lemma rstrip_cons (c : ascii) (s : string) :
  PyStr.is_space c = false → PyStr.rstrip (String c s) = String c (PyStr.rstrip s).
Proof.
  intros Hc. unfold PyStr.rstrip.
  now rewrite rev_cons, lstrip_snoc, rev_snoc by exact Hc.
Qed.

Lemma lstrip_idem (s : string) : PyStr.lstrip (PyStr.lstrip s) = PyStr.lstrip s.
Proof.
  induction s as [|c s IH]; [reflexivity|]. simpl.
  destruct (PyStr.is_space c) eqn:Hc; [exact IH|]. simpl. now rewrite Hc.
Qed.

Lemma strip_idem (s : string) : PyStr.strip (PyStr.strip s) = PyStr.strip s.
Proof.
  unfold PyStr.strip.
  assert (Hl : ∀ t, PyStr.lstrip (PyStr.rstrip (PyStr.lstrip t))
                    = PyStr.rstrip (PyStr.lstrip t)).
  { intros t. induction t as [|c t IH]; [reflexivity|]. simpl.
    destruct (PyStr.is_space c) eqn:Hc; [exact IH|].
    rewrite rstrip_cons by exact Hc. simpl. now rewrite Hc. }
  rewrite Hl. unfold PyStr.rstrip.
  now rewrite rev_involutive, lstrip_idem.
Qed.

Section StripMap.
Variable f : ascii → ascii.
Variable fs : string → string.
Hypothesis fs_nil : fs "" = "".
Hypothesis fs_cons : ∀ c s, fs (String c s) = String (f c) (fs s).
Hypothesis f_space : ∀ c, PyStr.is_space (f c) = PyStr.is_space c.

Lemma lstrip_map (s : string) : PyStr.lstrip (fs s) = fs (PyStr.lstrip s).
Proof.
  induction s as [|c s IH]; [now rewrite fs_nil|].
  rewrite fs_cons. simpl. rewrite f_space.
  destruct (PyStr.is_space c); [exact IH | now rewrite fs_cons].
Qed.

Lemma rev_app_map (s t : string) :
  String.rev_app (fs s) (fs t) = fs (String.rev_app s t).
Proof.
  revert t. induction s as [|c s IH]; intros t; [now rewrite fs_nil|].
  rewrite fs_cons. simpl. rewrite <- fs_cons. apply IH.
Qed.

Lemma strip_map (s : string) : PyStr.strip (fs s) = fs (PyStr.strip s).
Proof.
  assert (Hrev : ∀ t, String.rev (fs t) = fs (String.rev t)).
  { intros t. unfold String.rev. rewrite <- fs_nil at 1. apply rev_app_map. }
  unfold PyStr.strip, PyStr.rstrip.
  now rewrite lstrip_map, Hrev, lstrip_map, Hrev.
Qed.
End StripMap.

Lemma strip_lower (s : string) : PyStr.strip (PyStr.lower s) = PyStr.lower (PyStr.strip s).
Proof. apply (strip_map PyStr.lower_ascii); auto using is_space_lower_ascii. Qed.

Lemma strip_upper (s : string) : PyStr.strip (PyStr.upper s) = PyStr.upper (PyStr.strip s).
Proof. apply (strip_map PyStr.upper_ascii); auto using is_space_upper_ascii. Qed.

(** ** Value normaliser *)

Example to_yes_no_none : to_yes_no None = "N".
Proof. reflexivity. Qed.
Example to_yes_no_TRUE : to_yes_no (Some "TRUE") = "Y".
Proof. vm_compute. reflexivity. Qed.
Example to_yes_no_banana : to_yes_no (Some " banana ") = "BANANA".
Proof. vm_compute. reflexivity. Qed.
Example is_true_rule : is_true_value (Some "Created By Rule") = true.
Proof. vm_compute. reflexivity. Qed.

(** Strings of ASCII characters are closed under the helpers. *)
Lemma is_ascii_lower_ascii (c : ascii) :
  is_ascii_char (PyStr.lower_ascii c) = is_ascii_char c.
Proof. destruct c as [[] [] [] [] [] [] [] []]; reflexivity. Qed.

Lemma is_ascii_upper_ascii (c : ascii) :
  is_ascii_char (PyStr.upper_ascii c) = is_ascii_char c.
Proof. destruct c as [[] [] [] [] [] [] [] []]; reflexivity. Qed.

Lemma is_ascii_lower (s : string) : is_ascii (PyStr.lower s) = is_ascii s.
Proof.
  induction s as [|c s IH]; [reflexivity|].
  cbn [PyStr.lower is_ascii]. now rewrite is_ascii_lower_ascii, IH.
Qed.

Lemma is_ascii_upper (s : string) : is_ascii (PyStr.upper s) = is_ascii s.
Proof.
  induction s as [|c s IH]; [reflexivity|].
  cbn [PyStr.upper is_ascii]. now rewrite is_ascii_upper_ascii, IH.
Qed.

Lemma is_ascii_lstrip (s : string) : is_ascii s = true → is_ascii (PyStr.lstrip s) = true.
Proof.
  induction s as [|c s IH]; [reflexivity|].
  cbn [PyStr.lstrip is_ascii]. intros Hs.
  destruct (PyStr.is_space c); [|exact Hs].
  apply andb_true_iff in Hs as [_ Hs]. now apply IH.
Qed.

Lemma is_ascii_rev_app (s t : string) :
  is_ascii (String.rev_app s t) = is_ascii s && is_ascii t.
Proof.
  revert t. induction s as [|c s IH]; intros t; [reflexivity|].
  cbn [String.rev_app is_ascii]. rewrite IH. cbn [is_ascii].
  destruct (is_ascii_char c), (is_ascii s); reflexivity.
Qed.

Lemma is_ascii_rev (s : string) : is_ascii (String.rev s) = is_ascii s.
Proof. unfold String.rev. rewrite is_ascii_rev_app. cbn [is_ascii]. apply andb_true_r. Qed.

Lemma is_ascii_strip (s : string) : is_ascii s = true → is_ascii (PyStr.strip s) = true.
Proof.
  intros Hs. unfold PyStr.strip, PyStr.rstrip.
  rewrite is_ascii_rev. apply is_ascii_lstrip. rewrite is_ascii_rev.
  now apply is_ascii_lstrip.
Qed.

Lemma ascii_methods_faithful : ascii_faithful ascii_methods.
Proof. repeat split; intros; reflexivity. Qed.

(** The normaliser of the extractors, step by step. *)
Lemma to_yes_no_unfold (v : string) :
  to_yes_no (Some v)
  = if bool_decide (PyStr.lower (PyStr.strip v) ∈ yes_words) then "Y"
    else if bool_decide (PyStr.lower (PyStr.strip v) ∈ no_words) then "N"
    else if negb (PyStr.truthy (PyStr.lower (PyStr.strip v))) then "N"
    else PyStr.upper (PyStr.lower (PyStr.strip v)).
Proof. reflexivity. Qed.

Lemma is_true_value_unfold (v : string) :
  is_true_value (Some v)
  = bool_decide (PyStr.lower (PyStr.strip v)
                 ∈ yes_words ++ ["dynamic"; "created by rule"]).
Proof. reflexivity. Qed.

Section AsciiValues.
Variable m : str_methods.
Hypothesis m_ascii : ascii_faithful m.

(** On a value of ASCII characters the methods act as the helpers, at each
    of the three steps of the normaliser. *)
Lemma value_str_ascii (v : string) :
  is_ascii v = true →
  str_strip m v = PyStr.strip v
  ∧ str_lower m (str_strip m v) = PyStr.lower (PyStr.strip v)
  ∧ str_upper m (str_lower m (str_strip m v))
    = PyStr.upper (PyStr.lower (PyStr.strip v)).
Proof.
  intros Hv. destruct m_ascii as (Hs & Hl & Hu).
  assert (Hsv : is_ascii (PyStr.strip v) = true) by now apply is_ascii_strip.
  rewrite (Hs v Hv), (Hl _ Hsv), Hu by (now rewrite is_ascii_lower).
  auto.
Qed.

Lemma to_yes_no_with_ascii (v : string) :
  is_ascii v = true → to_yes_no_with m (Some v) = to_yes_no (Some v).
Proof.
  intros Hv. destruct (value_str_ascii v Hv) as (_ & Hl & Hu).
  rewrite to_yes_no_unfold. unfold to_yes_no_with. cbv zeta.
  now rewrite Hu, Hl.
Qed.

Lemma is_true_value_with_ascii (v : string) :
  is_ascii v = true → is_true_value_with m (Some v) = is_true_value (Some v).
Proof.
  intros Hv. destruct (value_str_ascii v Hv) as (_ & Hl & _).
  rewrite is_true_value_unfold. unfold is_true_value_with. cbv zeta.
  now rewrite Hl.
Qed.

(** C6. Over the methods of [str], [to_yes_no] sends the null value and every
    value that is empty after trimming to "N", every value whose trimmed
    lower-case form is one of yes/true/1/y to "Y", one of no/false/0/n to
    "N", and every other non-empty value to the upper-casing of its trimmed,
    lower-cased form, which for a value of ASCII characters is the trimmed
    value upper-cased; in particular [to_yes_no(None) = "N"],
    [to_yes_no("TRUE") = "Y"] and [to_yes_no("banana") = "BANANA"]. *)
Theorem to_yes_no_spec :
  to_yes_no_with m None = "N"
  ∧ (∀ v, str_strip m v = "" → to_yes_no_with m (Some v) = "N")
  ∧ (∀ v, str_lower m (str_strip m v) ∈ yes_words → to_yes_no_with m (Some v) = "Y")
  ∧ (∀ v, str_lower m (str_strip m v) ∈ no_words → to_yes_no_with m (Some v) = "N")
  ∧ (∀ v, str_lower m (str_strip m v) ≠ "" →
          str_lower m (str_strip m v) ∉ yes_words →
          str_lower m (str_strip m v) ∉ no_words →
          to_yes_no_with m (Some v) = str_upper m (str_lower m (str_strip m v)))
  ∧ (∀ v, is_ascii v = true →
          PyStr.strip v ≠ "" →
          PyStr.lower (PyStr.strip v) ∉ yes_words →
          PyStr.lower (PyStr.strip v) ∉ no_words →
          to_yes_no_with m (Some v) = PyStr.upper (PyStr.strip v))
  ∧ to_yes_no_with m (Some "TRUE") = "Y"
  ∧ to_yes_no_with m (Some "banana") = "BANANA".
Proof.
  split; [reflexivity|].
  split.
  { intros v Hv. unfold to_yes_no_with. cbv zeta. rewrite Hv.
    destruct m_ascii as (_ & Hl & _). rewrite (Hl "" eq_refl). reflexivity. }
  split.
  { intros v Hv. unfold to_yes_no_with. cbv zeta. now rewrite bool_decide_eq_true_2. }
  split.
  { intros v Hv. unfold to_yes_no_with. cbv zeta.
    destruct (bool_decide (str_lower m (str_strip m v) ∈ yes_words)) eqn:Hy.
    - apply bool_decide_eq_true_1 in Hy. exfalso. revert Hy Hv.
      generalize (str_lower m (str_strip m v)). intros w Hy Hn.
      unfold yes_words, no_words in *.
      set_unfold. intuition (subst; discriminate).
    - now rewrite bool_decide_eq_true_2. }
  split.
  { intros v Hne Hy Hn. unfold to_yes_no_with. cbv zeta.
    rewrite !bool_decide_eq_false_2 by assumption.
    destruct (PyStr.truthy (str_lower m (str_strip m v))) eqn:Ht; [reflexivity|].
    apply truthy_false_iff in Ht. contradiction. }
  split.
  { intros v Hv Hne Hy Hn. rewrite to_yes_no_with_ascii, to_yes_no_unfold by exact Hv.
    rewrite !bool_decide_eq_false_2 by assumption.
    destruct (PyStr.truthy (PyStr.lower (PyStr.strip v))) eqn:Ht; cbn [negb].
    - apply upper_lower.
    - apply truthy_false_iff, lower_empty_inv in Ht. contradiction. }
  split; rewrite to_yes_no_with_ascii by reflexivity; vm_compute; reflexivity.
Qed.
End AsciiValues.

Lemma to_yes_no_spec_witness :
  to_yes_no (Some "   ") = "N"
  ∧ to_yes_no (Some " Yes") = "Y"
  ∧ to_yes_no (Some "False ") = "N"
  ∧ to_yes_no (Some " maybe ") = "MAYBE".
Proof.
  destruct (to_yes_no_spec ascii_methods)
    as (_ & Hempty & Hyes & Hno & Hcode & Hother & _).
  { repeat split; intros; reflexivity. }
  split; [apply Hempty; vm_compute; reflexivity|].
  split; [apply Hyes; vm_compute; now left|].
  split; [apply Hno; vm_compute; right; now left|].
  change (to_yes_no (Some " maybe ")) with (to_yes_no_with ascii_methods (Some " maybe ")).
  rewrite Hother.
  - vm_compute; reflexivity.
  - reflexivity.
  - vm_compute; discriminate.
  - vm_compute. set_unfold. intuition discriminate.
  - vm_compute. set_unfold. intuition discriminate.
Defined.

(** In the specification's words a value that is neither empty nor a yes-
    or no-word is passed through upper-cased.  On the Kelvin sign the
    normaliser does otherwise: lower-casing turns the sign into the letter
    k, so the answer is the letter K, while upper-casing keeps the sign. *)
Lemma to_yes_no_not_upper_cased :
  ascii_faithful Samples.kelvin_methods
  ∧ to_yes_no_with Samples.kelvin_methods (Some Samples.kelvin_sign) = "K"
  ∧ str_upper Samples.kelvin_methods
      (str_strip Samples.kelvin_methods Samples.kelvin_sign)
    = Samples.kelvin_sign
  ∧ to_yes_no_with Samples.kelvin_methods (Some Samples.kelvin_sign)
    ≠ str_upper Samples.kelvin_methods
        (str_strip Samples.kelvin_methods Samples.kelvin_sign).
Proof.
  split; [|split; [|split]].
  - split; [|split]; intros s Hs; [reflexivity| |reflexivity].
    cbn [str_lower Samples.kelvin_methods].
    destruct (String.eqb_spec s Samples.kelvin_sign) as [->|_]; [|reflexivity].
    vm_compute in Hs. discriminate.
  - vm_compute. reflexivity.
  - vm_compute. reflexivity.
  - vm_compute. discriminate.
Qed.

(** ** Deduplicating loops *)

Section FirstOccurrences.
Context {A K : Type} `{Countable K}.
Variable key : A → K.
Variable skip : A → bool.

Lemma first_occurrences_elem (seen : gset K) (l : list A) (x : A) :
  x ∈ first_occurrences key skip seen l → x ∈ l ∧ skip x = false ∧ key x ∉ seen.
Proof.
  revert seen. induction l as [|y l IH]; intros seen; simpl.
  - intros Hx. inversion Hx.
  - destruct (skip y || bool_decide (key y ∈ seen)) eqn:Hg.
    + intros Hx. destruct (IH _ Hx) as (? & ? & ?). repeat split; auto. now right.
    + apply orb_false_iff in Hg as [Hs Hk]. apply bool_decide_eq_false_1 in Hk.
      intros Hx. apply elem_of_cons in Hx as [->|Hx].
      * repeat split; auto. now left.
      * destruct (IH _ Hx) as (? & ? & ?).
        repeat split; auto; [now right|].
        intros Hin. apply H2, elem_of_union. now left.
Qed.

Lemma first_occurrences_NoDup (seen : gset K) (l : list A) :
  NoDup (map key (first_occurrences key skip seen l)).
Proof.
  revert seen. induction l as [|y l IH]; intros seen; simpl.
  - constructor.
  - destruct (skip y || bool_decide (key y ∈ seen)); [apply IH|].
    simpl. constructor; [|apply IH].
    intros Hin. apply list_elem_of_fmap in Hin as (z & Hz & Hin).
    apply first_occurrences_elem in Hin as (_ & _ & Hn).
    apply Hn, elem_of_union. right. now apply elem_of_singleton.
Qed.

Lemma first_occurrences_covers (seen : gset K) (l : list A) (x : A) :
  x ∈ l → skip x = false → key x ∉ seen →
  ∃ y, y ∈ first_occurrences key skip seen l ∧ key y = key x.
Proof.
  revert seen. induction l as [|z l IH]; intros seen Hx Hs Hk; simpl.
  - inversion Hx.
  - destruct (skip z || bool_decide (key z ∈ seen)) eqn:Hg.
    + apply elem_of_cons in Hx as [->|Hx]; [|now apply IH].
      rewrite Hs, bool_decide_eq_false_2 in Hg by assumption. discriminate.
    + destruct (decide (key z = key x)) as [Heq|Hne].
      * exists z. split; [now left | assumption].
      * apply elem_of_cons in Hx as [->|Hx]; [congruence|].
        destruct (IH (seen ∪ {[key z]}) Hx Hs) as (y & Hy & Hky).
        { rewrite elem_of_union, elem_of_singleton. intuition congruence. }
        exists y. split; [now right | assumption].
Qed.

Section Emit.
Context {R : Type}.
Variable emit : A → R.

Lemma fold_dedup_step (l : list A) (acc : list R) (seen : gset K) :
  (fold_left (dedup_step key skip emit) l (acc, seen)).1 = acc ++ map emit (first_occurrences key skip seen l).
Proof.
  revert acc seen. induction l as [|x l IH]; intros acc seen; simpl.
  - now rewrite app_nil_r.
  - unfold dedup_step at 2. simpl.
    destruct (skip x || bool_decide (key x ∈ seen)); [apply IH|].
    rewrite IH. simpl. now rewrite <- app_assoc.
Qed.
End Emit.

(** Whether an item is skipped depends on its key only (the key is empty). *)
Hypothesis skip_key : ∀ x y, key x = key y → skip x = skip y.

Lemma first_occurrences_first (seen : gset K) (l : list A) (x : A) :
  x ∈ first_occurrences key skip seen l → is_first_occurrence key l x.
Proof.
  revert seen. induction l as [|z l IH]; intros seen; simpl.
  - intros Hx. inversion Hx.
  - destruct (skip z || bool_decide (key z ∈ seen)) eqn:Hg.
    + intros Hx. destruct (IH _ Hx) as (l1 & l2 & -> & Hl1).
      apply first_occurrences_elem in Hx as (_ & Hsx & Hkx).
      exists (z :: l1), l2. split; [reflexivity|].
      intros y Hy. apply elem_of_cons in Hy as [->|Hy]; [|now apply Hl1].
      intros Heq. apply orb_true_iff in Hg as [Hsz|Hkz].
      * rewrite (skip_key _ _ Heq) in Hsz. congruence.
      * apply bool_decide_eq_true_1 in Hkz. congruence.
    + intros Hx. apply elem_of_cons in Hx as [->|Hx].
      * exists [], l. split; [reflexivity|]. intros y Hy. inversion Hy.
      * destruct (IH _ Hx) as (l1 & l2 & -> & Hl1).
        apply first_occurrences_elem in Hx as (_ & _ & Hkx).
        exists (z :: l1), l2. split; [reflexivity|].
        intros y Hy. apply elem_of_cons in Hy as [->|Hy]; [|now apply Hl1].
        intros Heq. apply Hkx, elem_of_union. right. now apply elem_of_singleton.
Qed.
End FirstOccurrences.

Lemma NoDup_key_count {A K : Type} `{EqDecision K} (key : A → K) (l : list A) (x : A) :
  NoDup (map key l) → x ∈ l → length (filter (λ y, key y = key x) l) = 1%nat.
Proof.
  induction l as [|z l IH]; simpl; intros Hnd Hx; [inversion Hx|].
  apply NoDup_cons in Hnd as [Hz Hnd].
  assert (Hnone : ∀ k, k ∉ map key l → filter (λ y, key y = k) l = []).
  { intros k Hk. clear -Hk. induction l as [|y l IH]; [reflexivity|].
    rewrite filter_cons. destruct (decide (key y = k)) as [<-|_].
    - exfalso. apply Hk. simpl. now left.
    - apply IH. intros Hin. apply Hk. simpl. now right. }
  rewrite filter_cons. destruct (decide (key z = key x)) as [Heq|Hne].
  - rewrite Hnone; [reflexivity|]. now rewrite <- Heq.
  - apply elem_of_cons in Hx as [->|Hx]; [congruence|]. now apply IH.
Qed.

(** ** Tables built from uniform row dictionaries *)

Lemma fold_add_key_fresh (ks acc : list string) :
  NoDup (acc ++ ks) → fold_left add_key ks acc = acc ++ ks.
Proof.
  revert acc. induction ks as [|k ks IH]; intros acc Hnd; simpl.
  - now rewrite app_nil_r.
  - unfold add_key at 2. rewrite bool_decide_eq_false_2.
    + rewrite IH; rewrite <- app_assoc; [reflexivity | exact Hnd].
    + apply NoDup_app in Hnd as (_ & Hdisj & _). intros Hk.
      apply (Hdisj k Hk). now left.
Qed.

Lemma fold_add_key_known (ks acc : list string) :
  (∀ k, k ∈ ks → k ∈ acc) → fold_left add_key ks acc = acc.
Proof.
  induction ks as [|k ks IH]; intros Hsub; simpl; [reflexivity|].
  unfold add_key at 2. rewrite bool_decide_eq_true_2.
  - apply IH. intros k' Hk'. apply Hsub. now right.
  - apply Hsub. now left.
Qed.

Lemma records_columns_uniform (ks : list string) (records : list Record_) :
  NoDup ks → Forall (λ r, map fst r = ks) records → records ≠ [] →
  records_columns records = ks.
Proof.
  intros Hnd Hall Hne. unfold records_columns.
  destruct records as [|r records]; [congruence|].
  apply Forall_cons in Hall as [Hr Hall]. simpl. rewrite Hr.
  rewrite (fold_add_key_fresh ks []) by exact Hnd. simpl.
  clear Hne Hr. induction Hall as [|r' records Hr' _ IH]; simpl; [reflexivity|].
  rewrite Hr', fold_add_key_known by auto. exact IH.
Qed.

Lemma dict_get_keys (r : Record_) :
  NoDup (map fst r) → map (λ c, dict_get c r) (map fst r) = row_of_record r.
Proof.
  induction r as [|[k v] r IH]; simpl; intros Hnd; [reflexivity|].
  apply NoDup_cons in Hnd as [Hk Hnd].
  rewrite String.eqb_refl. f_equal.
  rewrite <- IH by exact Hnd.
  apply map_ext_in. intros c Hc.
  destruct (String.eqb_spec c k) as [->|_]; [|reflexivity].
  exfalso. apply Hk. now apply list_elem_of_In.
Qed.

Lemma DataFrame_of_records_uniform (ks : list string) (records : list Record_) :
  NoDup ks → Forall (λ r, map fst r = ks) records → records ≠ [] →
  DataFrame_of_records records = {| columns := ks; rows := map row_of_record records |}.
Proof.
  intros Hnd Hall Hne. unfold DataFrame_of_records.
  rewrite (records_columns_uniform ks) by assumption. f_equal.
  apply map_ext_in. intros r Hr.
  rewrite Forall_forall in Hall. apply list_elem_of_In, Hall in Hr.
  rewrite <- Hr. apply dict_get_keys. now rewrite Hr.
Qed.

Lemma df_cell_at (cols : list string) (rs : list (list (option string)))
    (row : list (option string)) (i : nat) (c : string) :
  NoDup cols → cols !! i = Some c →
  df_cell {| columns := cols; rows := rs |} row c = mjoin (row !! i).
Proof.
  intros Hnd Hi. unfold df_cell. simpl.
  destruct (list_find (λ c', c' = c) cols) as [[j c']|] eqn:Hf; simpl.
  - apply list_find_Some in Hf as (Hj & -> & _).
    now rewrite (NoDup_lookup _ _ _ _ Hnd Hj Hi).
  - apply list_find_None in Hf. rewrite Forall_forall in Hf.
    exfalso. eapply Hf; [|reflexivity]. eapply list_elem_of_lookup_2, Hi.
Qed.

Lemma df_select_all (cols : list string) (rs : list (list (option string))) :
  NoDup cols →
  Forall (λ row, length row = length cols ∧ Forall is_Some row) rs →
  df_select {| columns := cols; rows := rs |} cols = {| columns := cols; rows := rs |}.
Proof.
  intros Hnd Hrows. unfold df_select. simpl. f_equal.
  rewrite <- (map_id rs) at 2. apply map_ext_in. intros row Hrow.
  rewrite Forall_forall in Hrows. apply list_elem_of_In, Hrows in Hrow as [Hlen Hsome].
  apply list_eq. intros i. rewrite list_lookup_fmap.
  destruct (cols !! i) as [c|] eqn:Hc; simpl.
  - rewrite (df_cell_at cols rs row i c Hnd Hc).
    destruct (row !! i) as [cell|] eqn:Hcell; simpl.
    + rewrite Forall_forall in Hsome.
      destruct (Hsome cell) as [v ->]; [eapply list_elem_of_lookup_2, Hcell | reflexivity].
    + apply lookup_ge_None in Hcell. apply lookup_lt_Some in Hc. lia.
  - symmetry. apply lookup_ge_None. apply lookup_ge_None in Hc. lia.
Qed.

Lemma row_of_record_Some (r : Record_) : Forall is_Some (row_of_record r).
Proof. unfold row_of_record. apply Forall_forall. intros x Hx.
  apply list_elem_of_fmap in Hx as (kv & -> & _). eauto. Qed.

Lemma row_of_record_length (r : Record_) : length (row_of_record r) = length (map fst r).
Proof. unfold row_of_record. now rewrite !length_map. Qed.

(** ** The rows of the two tables *)

Lemma fold_left_ext_step {A B : Type} (f g : A → B → A) (l : list B) (a : A) :
  (∀ a b, f a b = g a b) → fold_left f l a = fold_left g l a.
Proof. intros Hfg. revert a. induction l as [|b l IH]; intros a; simpl; [reflexivity|].
  now rewrite Hfg, IH. Qed.

Lemma event_definition_records_kept (root : Element) (namespaces : NamespaceMap) :
  event_definition_records root namespaces
  = map (λ e, event_info e namespaces) (kept_events root namespaces).
Proof.
  unfold event_definition_records, kept_events.
  rewrite (fold_left_ext_step _
             (dedup_step event_oid oid_missing (λ e, event_info e namespaces))).
  - now rewrite fold_dedup_step.
  - intros [acc seen] e. reflexivity.
Qed.

Lemma NoDup_by_decide {A : Type} `{EqDecision A} (l : list A) :
  bool_decide (NoDup l) = true → NoDup l.
Proof. apply bool_decide_eq_true_1. Qed.

Lemma extract_event_definitions_rows (root : Element) (namespaces : NamespaceMap) :
  rows (extract_event_definitions root namespaces)
  = map (λ e, row_of_record (event_info e namespaces)) (kept_events root namespaces).
Proof.
  unfold extract_event_definitions.
  destruct (find_elements_once root "StudyEventDef" namespaces) as [|e0 evs] eqn:Hevs.
  - simpl. unfold kept_events. now rewrite Hevs.
  - simpl negb. cbv iota. rewrite event_definition_records_kept.
    destruct (kept_events root namespaces) as [|k ks] eqn:Hk; [reflexivity|].
    rewrite (DataFrame_of_records_uniform EVENT_COLUMNS).
    + simpl. now rewrite map_map.
    + apply NoDup_by_decide. vm_compute. reflexivity.
    + apply Forall_forall. intros r Hr. apply list_elem_of_fmap in Hr as (e & -> & _).
      reflexivity.
    + discriminate.
Qed.

Lemma instruments_fold_flat (namespaces : NamespaceMap)
    (site_forms_map : gmap string SiteInfo) (form_oid_to_name : gmap string string)
    (events : list Element) (st : list Record_ * gset (string * string)) :
  fold_left (instruments_event_step namespaces site_forms_map form_oid_to_name) events st
  = fold_left
      (dedup_step combo_key form_oid_missing
         (λ p, instrument_record namespaces site_forms_map form_oid_to_name p.1 p.2))
      (flat_map (λ event, map (pair event) (locate_form_refs event namespaces)) events)
      st.
Proof.
  revert st. induction events as [|ev events IH]; intros st; simpl; [reflexivity|].
  rewrite fold_left_app, IH. f_equal.
  unfold instruments_event_step.
  generalize (locate_form_refs ev namespaces). intros refs. clear IH.
  revert st. induction refs as [|fr refs IHr]; intros st; simpl; [reflexivity|].
  rewrite IHr. f_equal. destruct st as [acc seen]. reflexivity.
Qed.

Lemma event_instrument_records_kept (root : Element) (namespaces : NamespaceMap) :
  event_instrument_records root namespaces
  = map (pair_record root namespaces) (kept_pairs root namespaces).
Proof.
  unfold event_instrument_records, kept_pairs, candidate_pairs.
  rewrite instruments_fold_flat, fold_dedup_step. reflexivity.
Qed.

Lemma instrument_record_keys (namespaces : NamespaceMap)
    (site_forms_map : gmap string SiteInfo) (form_oid_to_name : gmap string string)
    (event form_ref : Element) :
  map fst (instrument_record namespaces site_forms_map form_oid_to_name event form_ref)
  = INSTRUMENT_COLUMNS.
Proof. reflexivity. Qed.

Lemma INSTRUMENT_COLUMNS_NoDup : NoDup INSTRUMENT_COLUMNS.
Proof. apply NoDup_by_decide. vm_compute. reflexivity. Qed.

(** The instrument table in terms of the pairs rows are emitted for. *)
Lemma extract_event_instruments_table (root : Element) (namespaces : NamespaceMap) :
  extract_event_instruments root namespaces
  = {| columns :=
         if nonempty (find_elements_once root "StudyEventDef" namespaces)
         then INSTRUMENT_COLUMNS else [];
       rows := map (λ p, row_of_record (pair_record root namespaces p))
                 (kept_pairs root namespaces) |}.
Proof.
  unfold extract_event_instruments.
  destruct (find_elements_once root "StudyEventDef" namespaces) as [|e0 evs] eqn:Hevs.
  - simpl. unfold kept_pairs, candidate_pairs. now rewrite Hevs.
  - simpl negb. cbv iota. simpl nonempty. cbv iota.
    rewrite event_instrument_records_kept.
    destruct (kept_pairs root namespaces) as [|k ks] eqn:Hk; [reflexivity|].
    rewrite (DataFrame_of_records_uniform INSTRUMENT_COLUMNS).
    + unfold df_empty. simpl nonempty. simpl negb. simpl orb. cbv iota.
      simpl columns.
      replace (filter (λ c, c ∈ INSTRUMENT_COLUMNS) INSTRUMENT_COLUMNS)
        with INSTRUMENT_COLUMNS by (vm_compute; reflexivity).
      rewrite df_select_all.
      * now rewrite map_map.
      * apply INSTRUMENT_COLUMNS_NoDup.
      * apply Forall_forall. intros row Hrow.
        apply list_elem_of_fmap in Hrow as (r & -> & Hr).
        apply list_elem_of_fmap in Hr as (p & -> & _).
        split; [|apply row_of_record_Some].
        rewrite row_of_record_length. unfold pair_record.
        now rewrite instrument_record_keys.
    + apply INSTRUMENT_COLUMNS_NoDup.
    + apply Forall_forall. intros r Hr. apply list_elem_of_fmap in Hr as (p & -> & _).
      apply instrument_record_keys.
    + discriminate.
Qed.

(** ** Column schema of the instrument table *)

(** C2. The instrument table carries the ten columns Event, Instrument Name,
    Version, Site, Repeating, Dynamic, Required, SDV, Medical Review, Data
    Review, in that order, exactly when the document has at least one
    event-definition element (rows or no rows); for a document with none,
    such as [Samples.no_events], the table returned has no columns at all. *)
Theorem instrument_columns_schema :
  (∀ root namespaces,
     columns (extract_event_instruments root namespaces)
     = if nonempty (find_elements_once root "StudyEventDef" namespaces)
       then ["Event"; "Instrument Name"; "Version"; "Site"; "Repeating"; "Dynamic";
             "Required"; "SDV"; "Medical Review"; "Data Review"]
       else [])
  ∧ extract_event_instruments Samples.no_events (get_namespace_map Samples.no_events)
    = {| columns := []; rows := [] |}.
Proof.
  split.
  - intros root namespaces. now rewrite extract_event_instruments_table.
  - vm_compute. reflexivity.
Qed.

(** ** Deduplication *)

(** C5. The rows of the event-definition table are those of the first
    element, in document order, of every distinct non-empty event OID, one
    row per OID; the rows of the instrument table are those of the first
    visited (event element, form reference) pair of every distinct
    (event OID, form OID) key with a non-empty form OID, one row per key. *)
Theorem rows_unique_first_occurrence (root : Element) (namespaces : NamespaceMap) :
  (rows (extract_event_definitions root namespaces)
     = map (λ e, row_of_record (event_info e namespaces)) (kept_events root namespaces)
   ∧ NoDup (map event_oid (kept_events root namespaces))
   ∧ (∀ e, e ∈ find_elements_once root "StudyEventDef" namespaces → event_oid e ≠ "" →
        length (filter (λ k, event_oid k = event_oid e) (kept_events root namespaces)) = 1%nat)
   ∧ (∀ k, k ∈ kept_events root namespaces →
        is_first_occurrence event_oid (find_elements_once root "StudyEventDef" namespaces) k))
  ∧
  (rows (extract_event_instruments root namespaces)
     = map (λ p, row_of_record (pair_record root namespaces p)) (kept_pairs root namespaces)
   ∧ NoDup (map combo_key (kept_pairs root namespaces))
   ∧ (∀ p, p ∈ candidate_pairs root namespaces → get p.2 "FormOID" "" ≠ "" →
        length (filter (λ k, combo_key k = combo_key p) (kept_pairs root namespaces)) = 1%nat)
   ∧ (∀ k, k ∈ kept_pairs root namespaces →
        is_first_occurrence combo_key (candidate_pairs root namespaces) k)).
Proof.
  set (events := find_elements_once root "StudyEventDef" namespaces).
  set (pairs := candidate_pairs root namespaces).
  split.
  - split; [apply extract_event_definitions_rows|].
    split; [apply first_occurrences_NoDup|].
    split.
    + intros e He Hoid.
      assert (Hs : oid_missing e = false)
        by (unfold oid_missing; now apply negb_false_iff, truthy_true_iff).
      destruct (first_occurrences_covers event_oid oid_missing ∅ events e He Hs)
        as (k & Hk & Hkey); [apply not_elem_of_empty|].
      rewrite <- Hkey.
      apply NoDup_key_count; [apply first_occurrences_NoDup | exact Hk].
    + intros k Hk. eapply first_occurrences_first; [|exact Hk].
      intros x y Hxy. unfold oid_missing. now rewrite Hxy.
  - split; [now rewrite extract_event_instruments_table|].
    split; [apply first_occurrences_NoDup|].
    split.
    + intros p Hp Hoid.
      assert (Hs : form_oid_missing p = false)
        by (unfold form_oid_missing; now apply negb_false_iff, truthy_true_iff).
      destruct (first_occurrences_covers combo_key form_oid_missing ∅ pairs p Hp Hs)
        as (k & Hk & Hkey); [apply not_elem_of_empty|].
      rewrite <- Hkey.
      apply NoDup_key_count; [apply first_occurrences_NoDup | exact Hk].
    + intros k Hk. eapply first_occurrences_first; [|exact Hk].
      intros x y Hxy. unfold form_oid_missing, combo_key in *.
      injection Hxy as _ Hf. now rewrite Hf.
Qed.

Lemma rows_unique_first_occurrence_witness :
  length (rows (extract_event_definitions Samples.study Samples.ns)) = 1%nat
  ∧ length (rows (extract_event_instruments Samples.study Samples.ns)) = 3%nat
  ∧ length (filter (λ k, event_oid k = "E1") (kept_events Samples.study Samples.ns)) = 1%nat
  ∧ length (filter (λ k, combo_key k = ("E1", "F1"))
              (kept_pairs Samples.study Samples.ns)) = 1%nat.
Proof.
  destruct (rows_unique_first_occurrence Samples.study Samples.ns)
    as ((Hrows & _ & Hone & _) & (Hrows' & _ & Hone' & _)).
  split; [rewrite Hrows; vm_compute; reflexivity|].
  split; [rewrite Hrows'; vm_compute; reflexivity|].
  split.
  - apply (Hone (Samples.event_def "E1" "Visit 1 again"
                   [Samples.form_ref "F1" "No" []])).
    + apply (list_elem_of_lookup_2 _ 1%nat). vm_compute. reflexivity.
    + vm_compute. discriminate.
  - apply (Hone' (Samples.event_def "E1" "Visit 1 again"
                    [Samples.form_ref "F1" "No" []],
                  Samples.form_ref "F1" "No" [])).
    + apply (list_elem_of_lookup_2 _ 3%nat). vm_compute. reflexivity.
    + vm_compute. discriminate.
Defined.

(** ** Event definitions without a key *)

Lemma first_occurrences_drop_skipped {A K : Type} `{Countable K}
    (key : A → K) (skip : A → bool) (seen : gset K) (l : list A) :
  first_occurrences key skip seen l
  = first_occurrences key skip seen (filter (λ x, skip x = false) l).
Proof.
  revert seen. induction l as [|x l IH]; intros seen; [reflexivity|].
  rewrite filter_cons. simpl. destruct (skip x) eqn:Hs; simpl.
  - destruct (decide (true = false)) as [?|_]; [discriminate | apply IH].
  - destruct (decide (false = false)) as [_|?]; [|congruence].
    simpl. rewrite Hs. simpl.
    destruct (bool_decide (key x ∈ seen)); [apply IH | now rewrite <- IH].
Qed.

Lemma get_blank_iff (e : Element) (key : string) :
  get e key "" = "" ↔ dict_get key (attrib e) = None ∨ dict_get key (attrib e) = Some "".
Proof.
  unfold get. destruct (dict_get key (attrib e)) as [v|]; simpl.
  - split; [intros ->; now right | intros [?|?]; congruence].
  - split; [now left | reflexivity].
Qed.

(** C10. No row of the event-definition table comes from an element whose
    OID attribute is absent or empty: every row is the row of an element
    with a non-empty OID, the loop leaves its state untouched on an element
    without one whatever its other attributes, and dropping these elements
    from the sequence changes nothing. *)
Theorem blank_oid_event_skipped (root : Element) (namespaces : NamespaceMap) :
  rows (extract_event_definitions root namespaces)
    = map (λ e, row_of_record (event_info e namespaces)) (kept_events root namespaces)
  ∧ (∀ e, e ∈ kept_events root namespaces →
       dict_get "OID" (attrib e) ≠ None ∧ dict_get "OID" (attrib e) ≠ Some "")
  ∧ (∀ e st, dict_get "OID" (attrib e) = None ∨ dict_get "OID" (attrib e) = Some "" →
       event_definitions_step namespaces st e = st)
  ∧ kept_events root namespaces
    = first_occurrences event_oid oid_missing ∅
        (filter (λ e, oid_missing e = false)
           (find_elements_once root "StudyEventDef" namespaces)).
Proof.
  split; [apply extract_event_definitions_rows|].
  split.
  { intros e He. apply first_occurrences_elem in He as (_ & Hs & _).
    unfold oid_missing in Hs. apply negb_false_iff, truthy_true_iff in Hs.
    unfold event_oid in Hs. rewrite get_blank_iff in Hs. tauto. }
  split.
  { intros e [acc seen] Hblank. apply get_blank_iff in Hblank.
    unfold event_definitions_step. now rewrite Hblank. }
  apply first_occurrences_drop_skipped.
Qed.

Lemma blank_oid_event_skipped_witness :
  event_definitions_step Samples.ns ([], ∅)
    (Elem "StudyEventDef" [("Name", "Unkeyed")] [Samples.form_ref "F3" "No" []])
  = ([], ∅)
  ∧ event_definitions_step Samples.ns ([], ∅)
      (Elem "StudyEventDef" [("OID", ""); ("Name", "Blank"); ("Repeating", "Yes")] [])
    = ([], ∅)
  ∧ rows (extract_event_definitions Samples.study Samples.ns)
    = [[Some ""; Some "Visit 1"; Some "N"; Some "N"; Some "N"]].
Proof.
  destruct (blank_oid_event_skipped Samples.study Samples.ns) as (Hrows & _ & Hskip & _).
  split; [apply Hskip; left; reflexivity|].
  split; [apply Hskip; right; reflexivity|].
  rewrite Hrows. vm_compute. reflexivity.
Defined.

(** ** Namespace resolver *)

Lemma contains_lower_nonempty (needle : string) (s : string) :
  needle ≠ "" → PyStr.contains needle (PyStr.lower s) = true → s ≠ "".
Proof.
  intros Hn Hc ->. simpl in Hc. destruct needle; [congruence | discriminate].
Qed.

(** Both resolved URIs are non-empty, whatever the root element. *)
Lemma get_namespace_map_truthy (root : Element) :
  odm (get_namespace_map root) ≠ "" ∧ REDCap (get_namespace_map root) ≠ "".
Proof.
  unfold get_namespace_map.
  match goal with
  | |- context [fold_left ?f (attrib root) ?p] =>
      assert (Hinv : (fold_left f (attrib root) p).1 ≠ ""
                     ∧ (fold_left f (attrib root) p).2 ≠ "");
      [| destruct (fold_left f (attrib root) p); exact Hinv]
  end.
  match goal with
  | |- context [fold_left ?f (attrib root) ?p] =>
      assert (Hp : p.1 ≠ "" ∧ p.2 ≠ "");
      [| revert Hp; generalize p; induction (attrib root) as [|[attr value] l IH];
         intros q Hq; simpl; [exact Hq | apply IH] ]
  end.
  - simpl. split; [|discriminate].
    destruct (PyStr.contains "}" (tag root)); [|discriminate].
    destruct (PyStr.contains "odm" _) eqn:Hc; [|discriminate].
    eapply contains_lower_nonempty; [|exact Hc]. discriminate.
  - destruct q as [o r]. destruct Hq as [Ho Hr]. simpl in *.
    destruct (PyStr.contains "xmlns" attr); [|now split].
    split; simpl.
    + destruct (PyStr.contains "odm" (PyStr.lower value)) eqn:Hc; simpl; [|exact Ho].
      destruct (PyStr.contains "cdisc" (PyStr.lower value)); [|exact Ho].
      eapply contains_lower_nonempty; [|exact Hc]. discriminate.
    + destruct (PyStr.contains "redcap" (PyStr.lower value)) eqn:Hc; [|exact Hr].
      eapply contains_lower_nonempty; [|exact Hc]. discriminate.
Qed.

(** ** Locating the form references of an event *)

Lemma startswith_refl (s : string) : PyStr.startswith s s = true.
Proof. induction s as [|c s IH]; simpl; [reflexivity|]. now rewrite Ascii.eqb_refl. Qed.

Lemma endswith_contains (p s : string) :
  PyStr.endswith p s = true → PyStr.contains p s = true.
Proof.
  induction s as [|c s IH]; simpl.
  - rewrite orb_false_r. intros Heq. apply String.eqb_eq in Heq as ->. reflexivity.
  - intros Hor. apply orb_true_iff in Hor as [Heq|Hs].
    + apply String.eqb_eq in Heq as ->. simpl. now rewrite Ascii.eqb_refl, startswith_refl.
    + rewrite (IH Hs). apply orb_true_r.
Qed.

Lemma nonempty_false_iff {A : Type} (l : list A) : nonempty l = false ↔ l = [].
Proof. destruct l; simpl; split; congruence. Qed.

Lemma nonempty_true_iff {A : Type} (l : list A) : nonempty l = true ↔ l ≠ [].
Proof. destruct l; simpl; split; congruence. Qed.

Lemma locate_form_refs_cases (event : Element) (namespaces : NamespaceMap) :
  odm namespaces ≠ "" → REDCap namespaces ≠ "" →
  locate_form_refs event namespaces
  = if nonempty (findall_children event (odm_prefixed namespaces "FormRef"))
    then findall_children event (odm_prefixed namespaces "FormRef")
    else if nonempty (findall_children event "FormRef")
         then findall_children event "FormRef"
         else lookalike_children event.
Proof.
  intros Ho Hr. unfold locate_form_refs. cbv zeta.
  apply truthy_true_iff in Ho, Hr. rewrite Ho, Hr.
  destruct (findall_children event (odm_prefixed namespaces "FormRef")) as [|q qs];
    simpl; [|reflexivity].
  destruct (findall_children event "FormRef") as [|x l]; simpl; [|reflexivity].
  unfold lookalike_children. apply list_filter_iff. intros child.
  rewrite orb_true_iff. split; [|now left].
  intros [Hc|He]; [exact Hc | now apply endswith_contains].
Qed.

(** C3 (as the code has it).  With the namespaces resolved from any root,
    the form references of an event are searched among its direct children
    only: the children tagged FormRef in the resolved core namespace if
    there are any, and then no further tier is attempted; else the children
    with the unqualified tag FormRef if there are any; else, as a last
    resort, every child whose tag contains "FormRef". *)
Theorem locate_form_refs_tiers (root event : Element) :
  (findall_children event (odm_prefixed (get_namespace_map root) "FormRef") ≠ [] →
     locate_form_refs event (get_namespace_map root)
     = findall_children event (odm_prefixed (get_namespace_map root) "FormRef"))
  ∧ (findall_children event (odm_prefixed (get_namespace_map root) "FormRef") = [] →
     findall_children event "FormRef" ≠ [] →
     locate_form_refs event (get_namespace_map root) = findall_children event "FormRef")
  ∧ (findall_children event (odm_prefixed (get_namespace_map root) "FormRef") = [] →
     findall_children event "FormRef" = [] →
     locate_form_refs event (get_namespace_map root) = lookalike_children event)
  ∧ (∀ form_ref, form_ref ∈ locate_form_refs event (get_namespace_map root) →
       form_ref ∈ children event).
Proof.
  destruct (get_namespace_map_truthy root) as [Ho Hr].
  rewrite (locate_form_refs_cases _ _ Ho Hr).
  split; [|split; [|split]].
  - intros Hq. apply nonempty_true_iff in Hq. now rewrite Hq.
  - intros Hq Hb. apply nonempty_true_iff in Hb. now rewrite Hq, Hb.
  - intros Hq Hb. now rewrite Hq, Hb.
  - intros fr. unfold lookalike_children, findall_children.
    repeat match goal with |- context [if ?b then _ else _] => destruct b end;
      intros Hfr; apply list_elem_of_filter in Hfr; tauto.
Qed.

Lemma locate_form_refs_tiers_witness :
  locate_form_refs Samples.odd_event (get_namespace_map Samples.study)
  = [Elem "FormRefGroup" [("FormOID", "F1")] []]
  ∧ locate_form_refs (Samples.event_def "E1" "Visit 1" [Samples.form_ref "F1" "Yes" []])
      (get_namespace_map Samples.study)
    = [Samples.form_ref "F1" "Yes" []].
Proof.
  split.
  - destruct (locate_form_refs_tiers Samples.study Samples.odd_event) as (_ & _ & H3 & _).
    rewrite H3; vm_compute; reflexivity.
  - destruct (locate_form_refs_tiers Samples.study
                (Samples.event_def "E1" "Visit 1" [Samples.form_ref "F1" "Yes" []]))
      as (_ & H2 & _).
    rewrite H2; [vm_compute; reflexivity | vm_compute; reflexivity | vm_compute; discriminate].
Defined.

(** C3 as stated fails.  On an event whose only child is tagged
    "FormRefGroup" the three tiers of the element finder and the tag-suffix
    match find nothing, while the extractor takes the child; on an event
    whose form reference sits below a wrapper child the element finder
    reaches it, while the extractor, which looks at direct children only,
    finds nothing. *)
Lemma locate_form_refs_not_spec :
  (spec_locate_form_refs Samples.odd_event (get_namespace_map Samples.study) = []
   ∧ locate_form_refs Samples.odd_event (get_namespace_map Samples.study)
     = [Elem "FormRefGroup" [("FormOID", "F1")] []])
  ∧ (spec_locate_form_refs Samples.nested_event (get_namespace_map Samples.study)
     = [Samples.form_ref "F1" "Yes" []]
     ∧ locate_form_refs Samples.nested_event (get_namespace_map Samples.study) = [])
  ∧ locate_form_refs Samples.odd_event (get_namespace_map Samples.study)
    ≠ spec_locate_form_refs Samples.odd_event (get_namespace_map Samples.study).
Proof.
  split; [split; vm_compute; reflexivity|].
  split; [split; vm_compute; reflexivity|].
  vm_compute. discriminate.
Qed.

(** ** Site/form map *)

Lemma metadata_versions_step_ignored (namespaces : NamespaceMap)
    (m : gmap string SiteInfo) (mv : Element) :
  mv_site_name mv = IGNORED_SITE → metadata_versions_step namespaces m mv = m.
Proof. intros Hn. unfold metadata_versions_step. now rewrite bool_decide_eq_true_2. Qed.

Lemma metadata_versions_step_lookup (namespaces : NamespaceMap)
    (m : gmap string SiteInfo) (mv : Element) (name : string) :
  mv_site_name mv ≠ IGNORED_SITE →
  forms <$> (metadata_versions_step namespaces m mv !! name)
  = if decide (mv_site_name mv = name)
    then Some (from_option forms ∅ (m !! name) ∪ mv_form_oids mv namespaces)
    else forms <$> (m !! name).
Proof.
  intros Hn. unfold metadata_versions_step.
  rewrite bool_decide_eq_false_2 by exact Hn.
  destruct (decide (mv_site_name mv = name)) as [<-|Hne].
  - destruct (m !! mv_site_name mv) as [info|] eqn:Hm;
      rewrite lookup_insert_eq; simpl; [reflexivity|].
    f_equal. now rewrite union_empty_l_L.
  - destruct (m !! mv_site_name mv); now rewrite lookup_insert_ne.
Qed.

Lemma fold_metadata_versions_ignored (namespaces : NamespaceMap) (mvs : list Element)
    (m : gmap string SiteInfo) :
  fold_left (metadata_versions_step namespaces) mvs m !! IGNORED_SITE = m !! IGNORED_SITE.
Proof.
  revert m. induction mvs as [|mv mvs IH]; intros m; simpl; [reflexivity|].
  rewrite IH. unfold metadata_versions_step.
  destruct (bool_decide (mv_site_name mv = IGNORED_SITE)) eqn:Hn; [reflexivity|].
  apply bool_decide_eq_false_1 in Hn.
  destruct (m !! mv_site_name mv); now rewrite lookup_insert_ne.
Qed.

Lemma fold_metadata_versions_forms (namespaces : NamespaceMap) (mvs : list Element)
    (m : gmap string SiteInfo) (name : string) :
  name ≠ IGNORED_SITE →
  forms <$> (fold_left (metadata_versions_step namespaces) mvs m !! name)
  = match forms <$> (m !! name) with
    | Some F => Some (F ∪ site_union namespaces name mvs)
    | None =>
        if nonempty (filter (λ mv, mv_site_name mv = name) mvs)
        then Some (site_union namespaces name mvs) else None
    end.
Proof.
  intros Hname. revert m. induction mvs as [|mv mvs IH]; intros m; simpl.
  - unfold site_union. simpl. destruct (m !! name); simpl; [|reflexivity].
    now rewrite union_empty_r_L.
  - rewrite IH. unfold site_union. rewrite filter_cons.
    destruct (decide (mv_site_name mv = IGNORED_SITE)) as [Hign|Hign].
    + rewrite metadata_versions_step_ignored by exact Hign.
      destruct (decide (mv_site_name mv = name)) as [Heq|_]; [congruence|reflexivity].
    + rewrite metadata_versions_step_lookup by exact Hign.
      destruct (decide (mv_site_name mv = name)) as [Heq|Hne]; [|reflexivity].
      cbn [map nonempty]. rewrite union_list_cons.
      destruct (m !! name); simpl; f_equal.
      * now rewrite (assoc_L (∪)).
      * now rewrite union_empty_l_L.
Qed.

Lemma extract_metadata_versions_fold (root : Element) (namespaces : NamespaceMap) :
  extract_metadata_versions root namespaces
  = fold_left (metadata_versions_step namespaces)
      (find_elements_once root "MetaDataVersion" namespaces) ∅.
Proof.
  unfold extract_metadata_versions.
  now destruct (find_elements_once root "MetaDataVersion" namespaces).
Qed.

(** C8. A display name (other than the ignored one) carried by one or more
    metadata-version elements has an entry in the site/form map, and the
    form set of that entry is the union of the form sets collected from all
    the elements with that name. *)
Theorem same_name_sites_merge (root : Element) (namespaces : NamespaceMap)
    (name : string) :
  name ≠ IGNORED_SITE →
  (∃ mv, mv ∈ find_elements_once root "MetaDataVersion" namespaces
         ∧ mv_site_name mv = name) →
  ∃ info,
    extract_metadata_versions root namespaces !! name = Some info
    ∧ forms info
      = site_union namespaces name (find_elements_once root "MetaDataVersion" namespaces)
    ∧ ∀ form_oid,
        form_oid ∈ forms info
        ↔ ∃ mv, mv ∈ find_elements_once root "MetaDataVersion" namespaces
                ∧ mv_site_name mv = name
                ∧ form_oid ∈ mv_form_oids mv namespaces.
Proof.
  intros Hname (mv0 & Hmv0 & Hn0).
  pose proof (fold_metadata_versions_forms namespaces
                (find_elements_once root "MetaDataVersion" namespaces) ∅ name Hname) as Hf.
  rewrite <- extract_metadata_versions_fold in Hf.
  rewrite lookup_empty in Hf. simpl in Hf.
  assert (Hne : nonempty (filter (λ mv, mv_site_name mv = name)
                            (find_elements_once root "MetaDataVersion" namespaces)) = true).
  { apply nonempty_true_iff. intros Hnil.
    assert (Hin : mv0 ∈ filter (λ mv, mv_site_name mv = name)
                     (find_elements_once root "MetaDataVersion" namespaces))
      by (apply list_elem_of_filter; auto).
    rewrite Hnil in Hin. inversion Hin. }
  rewrite Hne in Hf.
  destruct (extract_metadata_versions root namespaces !! name) as [info|];
    [|discriminate].
  simpl in Hf. injection Hf as Hf.
  exists info. split; [reflexivity|]. split; [exact Hf|].
  intros form_oid. rewrite Hf. unfold site_union. rewrite elem_of_union_list.
  split.
  - intros (X & HX & Hin). apply list_elem_of_fmap in HX as (mv & -> & Hmv).
    apply list_elem_of_filter in Hmv as [Hn Hmv]. eauto.
  - intros (mv & Hmv & Hn & Hin). exists (mv_form_oids mv namespaces).
    split; [|exact Hin]. apply list_elem_of_fmap. exists mv. split; [reflexivity|].
    apply list_elem_of_filter. auto.
Qed.

Lemma same_name_sites_merge_witness :
  ∃ info,
    extract_metadata_versions Samples.study Samples.ns !! "Site B" = Some info
    ∧ forms info = {["F1"; "F3"]}.
Proof.
  destruct (same_name_sites_merge Samples.study Samples.ns "Site B") as (info & Hm & Hf & _).
  - vm_compute. discriminate.
  - exists (Samples.site "MV2b" "Site B" [Samples.form_def "F3" "Form Three"]).
    split; [|reflexivity].
    apply (list_elem_of_lookup_2 _ 2%nat). vm_compute. reflexivity.
  - exists info. split; [exact Hm|]. rewrite Hf. vm_compute. reflexivity.
Defined.

(** ** Cells of the instrument table *)

Lemma elem_of_form_sites_of (m : gmap string SiteInfo) (form_oid site_name : string) :
  site_name ∈ form_sites_of m form_oid
  ↔ ∃ info, m !! site_name = Some info ∧ form_oid ∈ forms info.
Proof.
  unfold form_sites_of. destruct (size m =? 0)%nat eqn:Hsz.
  - apply Nat.eqb_eq, map_size_empty_iff in Hsz. subst m. split.
    + intros Hin. now apply not_elem_of_empty in Hin.
    + intros (info & Hl & _). rewrite lookup_empty in Hl. discriminate.
  - clear Hsz.
    apply (map_fold_weak_ind
             (λ (r : gset string) (m' : gmap string SiteInfo),
                site_name ∈ r ↔ ∃ info, m' !! site_name = Some info ∧ form_oid ∈ forms info)).
    + split.
      * intros Hin. now apply not_elem_of_empty in Hin.
      * intros (info & Hl & _). rewrite lookup_empty in Hl. discriminate.
    + intros i x m' r Hnone IH.
      destruct (decide (i = site_name)) as [->|Hne].
      * destruct (bool_decide (form_oid ∈ forms x)) eqn:Hx.
        -- apply bool_decide_eq_true_1 in Hx. split.
           ++ intros _. exists x. now rewrite lookup_insert_eq.
           ++ intros _. apply elem_of_union. right. now apply elem_of_singleton.
        -- apply bool_decide_eq_false_1 in Hx. rewrite IH. split.
           ++ intros (info & Hl & _). congruence.
           ++ intros (info & Hl & Hin). rewrite lookup_insert_eq in Hl. congruence.
      * assert (Hiff : site_name ∈ (if bool_decide (form_oid ∈ forms x)
                                     then r ∪ {[i]} else r) ↔ site_name ∈ r).
        { destruct (bool_decide (form_oid ∈ forms x)); [|reflexivity].
          rewrite elem_of_union, elem_of_singleton. intuition congruence. }
        rewrite Hiff, IH. now rewrite lookup_insert_ne.
Qed.

Lemma form_sites_of_subseteq (m : gmap string SiteInfo) (form_oid : string) :
  form_sites_of m form_oid ⊆ dom m.
Proof.
  intros s Hs. apply elem_of_form_sites_of in Hs as (info & Hl & _).
  apply elem_of_dom. eauto.
Qed.

Lemma kept_pairs_events (root : Element) (namespaces : NamespaceMap) :
  kept_pairs root namespaces ≠ [] →
  nonempty (find_elements_once root "StudyEventDef" namespaces) = true.
Proof.
  unfold kept_pairs, candidate_pairs.
  destruct (find_elements_once root "StudyEventDef" namespaces); simpl; congruence.
Qed.

(** A row of the instrument table is the row of the pair at the same
    position, and the table then has its full column index. *)
Lemma instrument_row_pair (root : Element) (namespaces : NamespaceMap)
    (i : nat) (row : list (option string)) :
  rows (extract_event_instruments root namespaces) !! i = Some row →
  ∃ p, kept_pairs root namespaces !! i = Some p
       ∧ row = row_of_record (pair_record root namespaces p)
       ∧ columns (extract_event_instruments root namespaces) = INSTRUMENT_COLUMNS.
Proof.
  rewrite extract_event_instruments_table. simpl. intros Hrow.
  rewrite list_lookup_fmap in Hrow.
  destruct (kept_pairs root namespaces !! i) as [p|] eqn:Hp; [|discriminate].
  injection Hrow as <-. exists p. split; [reflexivity|]. split; [reflexivity|].
  rewrite kept_pairs_events; [reflexivity|].
  intros Hnil. rewrite Hnil in Hp. discriminate.
Qed.

Lemma instrument_cells (df : DataFrame) (root : Element) (namespaces : NamespaceMap)
    (p : Element * Element) :
  columns df = INSTRUMENT_COLUMNS →
  df_cell df (row_of_record (pair_record root namespaces p)) "Site"
    = Some (site_display
              (form_sites_of (extract_metadata_versions root namespaces)
                 (get p.2 "FormOID" ""))
              (dom (extract_metadata_versions root namespaces)))
  ∧ df_cell df (row_of_record (pair_record root namespaces p)) "SDV"
    = Some (flag (bool_decide ("SDV" ∈ monitoring_types_present p.2 namespaces)))
  ∧ df_cell df (row_of_record (pair_record root namespaces p)) "Medical Review"
    = Some (flag (bool_decide ("Medical Review" ∈ monitoring_types_present p.2 namespaces)))
  ∧ df_cell df (row_of_record (pair_record root namespaces p)) "Data Review"
    = Some (flag (bool_decide ("Data Review" ∈ monitoring_types_present p.2 namespaces))).
Proof.
  destruct df as [cols rs]. simpl. intros ->.
  pose proof INSTRUMENT_COLUMNS_NoDup as Hnd.
  split; [|split; [|split]].
  - now rewrite (df_cell_at _ _ _ 3 "Site" Hnd eq_refl).
  - now rewrite (df_cell_at _ _ _ 7 "SDV" Hnd eq_refl).
  - now rewrite (df_cell_at _ _ _ 8 "Medical Review" Hnd eq_refl).
  - now rewrite (df_cell_at _ _ _ 9 "Data Review" Hnd eq_refl).
Qed.

(** ** Site column *)

Lemma site_display_cases (form_sites all_valid_sites : gset string) :
  (form_sites = ∅ → site_display form_sites all_valid_sites = "Unknown Site")
  ∧ (form_sites ≠ ∅ → form_sites = all_valid_sites →
       site_display form_sites all_valid_sites = "All sites")
  ∧ (form_sites ≠ ∅ → form_sites ≠ all_valid_sites →
       ∃ names, site_display form_sites all_valid_sites = PyStr.join ", " names
                ∧ Sorted String.le names
                ∧ names ≡ₚ elements form_sites).
Proof.
  unfold site_display. split; [|split].
  - intros He. now rewrite bool_decide_eq_true_2.
  - intros Hne Heq. rewrite bool_decide_eq_false_2 by exact Hne.
    now rewrite bool_decide_eq_true_2.
  - intros Hne Hneq. rewrite !bool_decide_eq_false_2 by assumption.
    exists (PyStr.sorted (elements form_sites)). split; [reflexivity|].
    unfold PyStr.sorted. split.
    + apply Sorted_merge_sort. apply _.
    + apply merge_sort_Permutation.
Qed.

(** C4 (as the code has it).  The Site cell of every row is "Unknown Site"
    when no site declares the row's form, "All sites" when the non-empty set
    of declaring sites is the whole set of known sites, and otherwise the
    names of the declaring sites, sorted and joined with ", ". *)
Theorem site_column_display (root : Element) (namespaces : NamespaceMap)
    (i : nat) (row : list (option string)) :
  rows (extract_event_instruments root namespaces) !! i = Some row →
  ∃ (event form_ref : Element) (declaring : gset string),
    kept_pairs root namespaces !! i = Some (event, form_ref)
    ∧ (∀ site_name,
         site_name ∈ declaring
         ↔ ∃ info, extract_metadata_versions root namespaces !! site_name = Some info
                   ∧ get form_ref "FormOID" "" ∈ forms info)
    ∧ (declaring = ∅ →
         df_cell (extract_event_instruments root namespaces) row "Site"
         = Some "Unknown Site")
    ∧ (declaring ≠ ∅ → declaring = dom (extract_metadata_versions root namespaces) →
         df_cell (extract_event_instruments root namespaces) row "Site"
         = Some "All sites")
    ∧ (declaring ≠ ∅ → declaring ≠ dom (extract_metadata_versions root namespaces) →
         ∃ names,
           df_cell (extract_event_instruments root namespaces) row "Site"
           = Some (PyStr.join ", " names)
           ∧ Sorted String.le names
           ∧ names ≡ₚ elements declaring).
Proof.
  intros Hrow. apply instrument_row_pair in Hrow as ([event form_ref] & Hp & -> & Hcols).
  exists event, form_ref,
    (form_sites_of (extract_metadata_versions root namespaces) (get form_ref "FormOID" "")).
  split; [exact Hp|].
  split; [intros s; apply elem_of_form_sites_of|].
  destruct (instrument_cells _ root namespaces (event, form_ref) Hcols) as (Hsite & _).
  rewrite Hsite. simpl.
  destruct (site_display_cases
              (form_sites_of (extract_metadata_versions root namespaces)
                 (get form_ref "FormOID" ""))
              (dom (extract_metadata_versions root namespaces))) as (H1 & H2 & H3).
  split; [intros He; now rewrite H1|].
  split; [intros Hne Heq; now rewrite H2|].
  intros Hne Hneq. destruct (H3 Hne Hneq) as (names & -> & Hs & Hperm). eauto.
Qed.

Lemma site_column_display_witness :
  ∃ (event form_ref : Element) (declaring : gset string),
    kept_pairs Samples.study Samples.ns !! 1%nat = Some (event, form_ref)
    ∧ get form_ref "FormOID" "" = "F2"
    ∧ declaring = {["Site A"]}
    ∧ df_cell (extract_event_instruments Samples.study Samples.ns)
        [Some "Visit 1"; Some "Form Two"; Some ""; Some "Site A"; Some "N"; Some "N";
         Some "N"; Some "N"; Some "N"; Some "N"] "Site"
      = Some "Site A".
Proof.
  destruct (site_column_display Samples.study Samples.ns 1%nat
              [Some "Visit 1"; Some "Form Two"; Some ""; Some "Site A"; Some "N"; Some "N";
               Some "N"; Some "N"; Some "N"; Some "N"])
    as (event & form_ref & declaring & Hp & Hdecl & _).
  - vm_compute. reflexivity.
  - exists event, form_ref, declaring.
    assert (Hfr : form_ref = Samples.form_ref "F2" "No" []).
    { assert (Hk : kept_pairs Samples.study Samples.ns !! 1%nat
                   = Some (Samples.event_def "E1" "Visit 1"
                             [Samples.form_ref "F1" "Yes"
                                [Elem "Monitoring" [("Type", "SDV")] []];
                              Samples.form_ref "F2" "No" [];
                              Samples.form_ref "F1" "No" []],
                           Samples.form_ref "F2" "No" []))
        by (vm_compute; reflexivity).
      rewrite Hk in Hp. now injection Hp as _ <-. }
    subst form_ref.
    split; [exact Hp|]. split; [reflexivity|].
    split; [|vm_compute; reflexivity].
    apply set_eq. intros s. rewrite Hdecl, elem_of_singleton.
    rewrite <- (elem_of_form_sites_of (extract_metadata_versions Samples.study Samples.ns)).
    replace (form_sites_of (extract_metadata_versions Samples.study Samples.ns)
               (get (Samples.form_ref "F2" "No" []) "FormOID" ""))
      with ({["Site A"]} : gset string) by (vm_compute; reflexivity).
    apply elem_of_singleton.
Defined.

(** C4 as stated fails when no site is known: the form's site set (empty)
    then equals the full set of known sites, yet the Site cell is
    "Unknown Site" and not "All sites". *)
Lemma site_display_not_spec :
  form_sites_of
      (extract_metadata_versions Samples.no_sites (get_namespace_map Samples.no_sites)) "F1"
    = dom (extract_metadata_versions Samples.no_sites (get_namespace_map Samples.no_sites))
  ∧ spec_site_display
      (form_sites_of
         (extract_metadata_versions Samples.no_sites (get_namespace_map Samples.no_sites))
         "F1")
      (dom (extract_metadata_versions Samples.no_sites (get_namespace_map Samples.no_sites)))
    = "All sites"
  ∧ map (λ row, df_cell
                  (extract_event_instruments Samples.no_sites
                     (get_namespace_map Samples.no_sites)) row "Site")
      (rows (extract_event_instruments Samples.no_sites
               (get_namespace_map Samples.no_sites)))
    = [Some "Unknown Site"]
  ∧ Some "Unknown Site" ≠ Some "All sites".
Proof.
  split; [vm_compute; reflexivity|].
  split; [vm_compute; reflexivity|].
  split; [vm_compute; reflexivity|].
  discriminate.
Qed.

(** ** The ignored site *)

Lemma fold_metadata_versions_drop_ignored (namespaces : NamespaceMap)
    (mvs : list Element) (m : gmap string SiteInfo) :
  fold_left (metadata_versions_step namespaces) mvs m
  = fold_left (metadata_versions_step namespaces)
      (filter (λ mv, mv_site_name mv ≠ IGNORED_SITE) mvs) m.
Proof.
  revert m. induction mvs as [|mv mvs IH]; intros m; [reflexivity|].
  rewrite filter_cons. simpl.
  destruct (decide (mv_site_name mv ≠ IGNORED_SITE)) as [Hne|Heq]; simpl.
  - apply IH.
  - rewrite metadata_versions_step_ignored; [apply IH|].
    destruct (decide (mv_site_name mv = IGNORED_SITE)); [assumption | contradiction].
Qed.

Lemma contains_app (needle prefix s : string) :
  PyStr.contains needle s = true → PyStr.contains needle (prefix +:+ s) = true.
Proof.
  intros Hs. induction prefix as [|c prefix IH]; [exact Hs|].
  change (String c prefix +:+ s) with (String c (prefix +:+ s)).
  simpl. rewrite IH. apply orb_true_r.
Qed.

Lemma contains_refl (s : string) : PyStr.contains s s = true.
Proof. destruct s; simpl; [reflexivity|]. now rewrite Ascii.eqb_refl, startswith_refl. Qed.

Lemma join_not_ignored (names : list string) :
  IGNORED_SITE ∉ names → PyStr.join ", " names ≠ IGNORED_SITE.
Proof.
  intros Hnot. destruct names as [|x [|y names]].
  - discriminate.
  - simpl. intros ->. apply Hnot. now left.
  - intros Heq.
    assert (Hcomma : PyStr.contains "," (PyStr.join ", " (x :: y :: names)) = true).
    { change (PyStr.join ", " (x :: y :: names))
        with (x +:+ ", " +:+ PyStr.join ", " (y :: names)).
      apply contains_app. reflexivity. }
    rewrite Heq in Hcomma. vm_compute in Hcomma. discriminate.
Qed.

Lemma site_display_not_ignored (form_sites all_valid_sites : gset string) :
  IGNORED_SITE ∉ form_sites → site_display form_sites all_valid_sites ≠ IGNORED_SITE.
Proof.
  intros Hnot. unfold site_display.
  destruct (bool_decide (form_sites = ∅)); [discriminate|].
  destruct (bool_decide (form_sites = all_valid_sites)); [discriminate|].
  apply join_not_ignored. unfold PyStr.sorted.
  rewrite merge_sort_Permutation. now rewrite elem_of_elements.
Qed.

(** C7. No entry of the site/form map, hence no member of the set of known
    sites, is named "REDCap Cloud Demo": the metadata-version elements with
    that display name leave the map untouched, so the map is the one built
    from the other elements alone.  The Site cell of a row is the display of
    a set of known sites that does not contain the name, compared against a
    set of known sites that does not contain it, and is never the name. *)
Theorem ignored_site_excluded (root : Element) (namespaces : NamespaceMap) :
  extract_metadata_versions root namespaces !! IGNORED_SITE = None
  ∧ (IGNORED_SITE ∉ dom (extract_metadata_versions root namespaces))
  ∧ (∀ m mv, mv_site_name mv = IGNORED_SITE →
       metadata_versions_step namespaces m mv = m)
  ∧ extract_metadata_versions root namespaces
    = fold_left (metadata_versions_step namespaces)
        (filter (λ mv, mv_site_name mv ≠ IGNORED_SITE)
           (find_elements_once root "MetaDataVersion" namespaces)) ∅
  ∧ (∀ i row,
       rows (extract_event_instruments root namespaces) !! i = Some row →
       df_cell (extract_event_instruments root namespaces) row "Site" ≠ Some IGNORED_SITE
       ∧ ∃ form_sites : gset string,
           (IGNORED_SITE ∉ form_sites)
           ∧ form_sites ⊆ dom (extract_metadata_versions root namespaces)
           ∧ df_cell (extract_event_instruments root namespaces) row "Site"
             = Some (site_display form_sites
                       (dom (extract_metadata_versions root namespaces)))).
Proof.
  assert (Hnone : extract_metadata_versions root namespaces !! IGNORED_SITE = None).
  { rewrite extract_metadata_versions_fold, fold_metadata_versions_ignored.
    apply lookup_empty. }
  assert (Hdom : IGNORED_SITE ∉ dom (extract_metadata_versions root namespaces)).
  { rewrite elem_of_dom, Hnone. intros [? ?]. discriminate. }
  split; [exact Hnone|]. split; [exact Hdom|].
  split; [intros m mv; apply metadata_versions_step_ignored|].
  split.
  { rewrite extract_metadata_versions_fold. apply fold_metadata_versions_drop_ignored. }
  intros i row Hrow.
  apply instrument_row_pair in Hrow as (p & Hp & -> & Hcols).
  destruct (instrument_cells _ root namespaces p Hcols) as (Hsite & _).
  rewrite Hsite.
  assert (Hnot : IGNORED_SITE ∉ form_sites_of (extract_metadata_versions root namespaces)
                                   (get p.2 "FormOID" "")).
  { intros Hin. apply Hdom. eapply form_sites_of_subseteq, Hin. }
  split.
  - intros Heq. injection Heq as Heq. revert Heq. now apply site_display_not_ignored.
  - eexists. split; [exact Hnot|]. split; [apply form_sites_of_subseteq | reflexivity].
Qed.

Lemma ignored_site_excluded_witness :
  metadata_versions_step Samples.ns ∅
    (Samples.site "MV3" "REDCap Cloud Demo" [Samples.form_def "F2" "Form Two"]) = ∅
  ∧ df_cell (extract_event_instruments Samples.study Samples.ns)
      [Some "Visit 1"; Some "Form Two"; Some ""; Some "Site A"; Some "N"; Some "N";
       Some "N"; Some "N"; Some "N"; Some "N"] "Site"
    ≠ Some IGNORED_SITE.
Proof.
  destruct (ignored_site_excluded Samples.study Samples.ns) as (_ & _ & Hstep & _ & Hrows).
  split.
  - apply Hstep. reflexivity.
  - apply (Hrows 1%nat). vm_compute. reflexivity.
Defined.

(** ** Monitoring flags *)

Lemma elem_of_collect_attr (key : string) (elems : list Element) (acc : gset string)
    (v : string) :
  v ∈ collect_attr key elems acc
  ↔ v ∈ acc ∨ (v ≠ "" ∧ ∃ e, e ∈ elems ∧ get e key "" = v).
Proof.
  unfold collect_attr. revert acc. induction elems as [|x elems IH]; intros acc; simpl.
  - split; [now left|]. intros [Hacc|(_ & e & He & _)]; [exact Hacc | inversion He].
  - rewrite IH. destruct (PyStr.truthy (get x key "")) eqn:Ht.
    + apply truthy_true_iff in Ht. rewrite elem_of_union, elem_of_singleton. split.
      * intros [[Hacc| ->]|(Hv & e & He & Hg)].
        -- now left.
        -- right. split; [exact Ht|]. exists x. split; [now left | reflexivity].
        -- right. split; [exact Hv|]. exists e. split; [now right | exact Hg].
      * intros [Hacc|(Hv & e & He & Hg)]; [now left; left|].
        apply elem_of_cons in He as [->|He]; [left; right; now symmetry|].
        right. eauto.
    + apply truthy_false_iff in Ht. split.
      * intros [Hacc|(Hv & e & He & Hg)]; [now left|].
        right. split; [exact Hv|]. exists e. split; [now right | exact Hg].
      * intros [Hacc|(Hv & e & He & Hg)]; [now left|].
        apply elem_of_cons in He as [->|He]; [congruence|].
        right. eauto.
Qed.

Lemma children_descendants (e child : Element) :
  child ∈ children e → child ∈ descendants e.
Proof.
  intros Hc. unfold descendants. apply list_elem_of_In, in_flat_map.
  exists child. split; [now apply list_elem_of_In|].
  destruct child. simpl. now left.
Qed.

Lemma contains_qname (uri local : string) : PyStr.contains local (qname uri local) = true.
Proof. unfold qname. do 3 apply contains_app. apply contains_refl. Qed.

(** Whatever the search of [monitoring_elems] returns lies under the form
    reference and has "Monitoring" in its tag. *)
Lemma monitoring_elems_tagged (form_ref : Element) (namespaces : NamespaceMap)
    (m : Element) :
  m ∈ monitoring_elems form_ref namespaces →
  m ∈ descendants form_ref ∧ PyStr.contains "Monitoring" (tag m) = true.
Proof.
  unfold monitoring_elems, REDCap_prefixed. cbv zeta.
  destruct (PyStr.truthy (REDCap namespaces)); [|intros Hm; inversion Hm].
  assert (Hq : ∀ x, x ∈ findall_descendants form_ref (qname (REDCap namespaces) "Monitoring") →
                 x ∈ descendants form_ref ∧ PyStr.contains "Monitoring" (tag x) = true).
  { intros x Hx. apply list_elem_of_filter in Hx as [Ht Hx].
    split; [exact Hx|]. rewrite Ht. apply contains_qname. }
  destruct (findall_descendants form_ref (qname (REDCap namespaces) "Monitoring"))
    as [|q qs] eqn:Hfind; simpl.
  - intros Hm. apply list_elem_of_filter in Hm as [Ht Hm].
    split; [now apply children_descendants | exact Ht].
  - apply Hq.
Qed.

Lemma plain_uri_nonempty (uri : string) : plain_uri uri = true → uri ≠ "".
Proof.
  unfold plain_uri. intros Hp.
  apply andb_true_iff in Hp as [Hp _]. apply andb_true_iff in Hp as [Hp _].
  now apply truthy_true_iff.
Qed.

(** What the search of [monitoring_elems] returns, read off the tree: the
    descendants carrying the qualified tag when there is one, and otherwise
    the direct children with "Monitoring" in their tag. *)
Lemma elem_of_monitoring_elems (form_ref : Element) (namespaces : NamespaceMap)
    (m : Element) :
  REDCap namespaces ≠ "" →
  m ∈ monitoring_elems form_ref namespaces
  ↔ (m ∈ descendants form_ref ∧ tag m = qname (REDCap namespaces) "Monitoring")
    ∨ ((∀ d, d ∈ descendants form_ref → tag d ≠ qname (REDCap namespaces) "Monitoring")
       ∧ m ∈ children form_ref ∧ PyStr.contains "Monitoring" (tag m) = true).
Proof.
  intros Hne. apply truthy_true_iff in Hne.
  unfold monitoring_elems, REDCap_prefixed. cbv zeta. rewrite Hne.
  destruct (findall_descendants form_ref (qname (REDCap namespaces) "Monitoring"))
    as [|q qs] eqn:Hfind; simpl.
  - assert (Hnone : ∀ d, d ∈ descendants form_ref →
                         tag d ≠ qname (REDCap namespaces) "Monitoring").
    { intros d Hd Ht.
      assert (Hin : d ∈ findall_descendants form_ref
                          (qname (REDCap namespaces) "Monitoring"))
        by (apply list_elem_of_filter; auto).
      rewrite Hfind in Hin. inversion Hin. }
    rewrite list_elem_of_filter. split.
    + intros [Ht Hm]. right. auto.
    + intros [[Hm Ht]|(_ & Hm & Ht)]; [now apply Hnone in Ht | auto].
  - rewrite <- Hfind. unfold findall_descendants at 1.
    rewrite list_elem_of_filter. split.
    + intros [Ht Hm]. left. auto.
    + intros [[Hm Ht]|(Hnone & _)]; [auto|]. exfalso.
      assert (Hq : q ∈ findall_descendants form_ref
                         (qname (REDCap namespaces) "Monitoring"))
        by (rewrite Hfind; now left).
      apply list_elem_of_filter in Hq as [Ht Hq]. now apply Hnone in Hq.
Qed.




(** * Further properties of the extraction code *)

(** ** Value normaliser, continued *)

Lemma upper_lower_Y (x : string) :
  PyStr.upper (PyStr.lower x) = "Y" → PyStr.lower x = "y".
Proof.
  destruct x as [|c [|d x]]; simpl; try discriminate.
  intros Heq. injection Heq as Heq. f_equal.
  revert Heq. destruct c as [[] [] [] [] [] [] [] []]; vm_compute; congruence.
Qed.

Lemma upper_lower_N (x : string) :
  PyStr.upper (PyStr.lower x) = "N" → PyStr.lower x = "n".
Proof.
  destruct x as [|c [|d x]]; simpl; try discriminate.
  intros Heq. injection Heq as Heq. f_equal.
  revert Heq. destruct c as [[] [] [] [] [] [] [] []]; vm_compute; congruence.
Qed.

Lemma upper_nonempty (s : string) : s ≠ "" → PyStr.upper s ≠ "".
Proof. destruct s; simpl; [congruence | discriminate]. Qed.

Lemma yes_no_disjoint (w : string) : w ∈ yes_words → w ∈ no_words → False.
Proof.
  unfold yes_words, no_words. intros Hy Hn.
  repeat (apply elem_of_cons in Hy as [->|Hy]);
    try (inversion Hy; fail);
    repeat (apply elem_of_cons in Hn as [Hn|Hn]); try discriminate; inversion Hn.
Qed.

Lemma to_yes_no_Y_inv (v : string) :
  to_yes_no (Some v) = "Y" → PyStr.lower (PyStr.strip v) ∈ yes_words.
Proof.
  rewrite to_yes_no_unfold.
  destruct (bool_decide (PyStr.lower (PyStr.strip v) ∈ yes_words)) eqn:Hy;
    [intros _; now apply bool_decide_eq_true_1 in Hy|].
  destruct (bool_decide (PyStr.lower (PyStr.strip v) ∈ no_words)); [discriminate|].
  destruct (PyStr.truthy (PyStr.lower (PyStr.strip v))); simpl; [|discriminate].
  intros Hu. apply upper_lower_Y in Hu. rewrite Hu. do 3 right. now left.
Qed.

(** The answers of the normaliser on the ASCII instance of the methods. *)
Lemma ascii_yes_no_cases (v : string) :
  (to_yes_no (Some v) = "Y" ↔ PyStr.lower (PyStr.strip v) ∈ yes_words)
  ∧ (to_yes_no (Some v) = "N"
     ↔ PyStr.strip v = "" ∨ PyStr.lower (PyStr.strip v) ∈ no_words)
  ∧ to_yes_no (Some v) ≠ "".
Proof.
  rewrite to_yes_no_unfold.
  destruct (bool_decide (PyStr.lower (PyStr.strip v) ∈ yes_words)) eqn:Hy.
  { apply bool_decide_eq_true_1 in Hy. split; [|split]; [| |discriminate].
    - split; [intros _; exact Hy | reflexivity].
    - split; [discriminate|].
      intros [Hb|Hn]; exfalso.
      + rewrite Hb in Hy. vm_compute in Hy.
        repeat (apply elem_of_cons in Hy as [Hy|Hy]; [discriminate|]). inversion Hy.
      + exact (yes_no_disjoint _ Hy Hn). }
  apply bool_decide_eq_false_1 in Hy.
  destruct (bool_decide (PyStr.lower (PyStr.strip v) ∈ no_words)) eqn:Hn.
  { apply bool_decide_eq_true_1 in Hn. split; [|split]; [| |discriminate].
    - split; [discriminate | intros Hy'; contradiction].
    - split; [intros _; now right | reflexivity]. }
  apply bool_decide_eq_false_1 in Hn.
  destruct (PyStr.truthy (PyStr.lower (PyStr.strip v))) eqn:Ht; cbn [negb].
  - apply truthy_true_iff in Ht. split; [|split].
    + split.
      * intros Hu. apply upper_lower_Y in Hu. rewrite Hu in Hy.
        exfalso. apply Hy. vm_compute. do 3 right. now left.
      * intros Hy'. contradiction.
    + split.
      * intros Hu. apply upper_lower_N in Hu. rewrite Hu in Hn.
        exfalso. apply Hn. vm_compute. do 3 right. now left.
      * intros [Hb|Hn']; [|contradiction].
        rewrite Hb in Ht. now exfalso.
    + now apply upper_nonempty.
  - apply truthy_false_iff, lower_empty_inv in Ht. split; [|split]; [| |discriminate].
    + split; [discriminate | intros Hy'; contradiction].
    + split; [intros _; now left | reflexivity].
Qed.

Lemma to_yes_no_same_key (v v' : string) :
  PyStr.lower (PyStr.strip v) = PyStr.lower (PyStr.strip v') →
  to_yes_no (Some v) = to_yes_no (Some v').
Proof. intros Heq. rewrite !to_yes_no_unfold. now rewrite Heq. Qed.

Lemma normal_key_upper (v : string) :
  PyStr.lower (PyStr.strip (PyStr.upper (PyStr.lower (PyStr.strip v))))
  = PyStr.lower (PyStr.strip v).
Proof.
  now rewrite strip_upper, lower_upper, strip_lower, strip_idem, lower_lower.
Qed.

Lemma ascii_yes_no_twice (v : string) :
  to_yes_no (Some (to_yes_no (Some v))) = to_yes_no (Some v).
Proof.
  remember (to_yes_no (Some v)) as r eqn:Hr. rewrite to_yes_no_unfold in Hr.
  destruct (bool_decide (PyStr.lower (PyStr.strip v) ∈ yes_words)) eqn:Hy;
    [now subst r|].
  destruct (bool_decide (PyStr.lower (PyStr.strip v) ∈ no_words)) eqn:Hn;
    [now subst r|].
  destruct (PyStr.truthy (PyStr.lower (PyStr.strip v))) eqn:Ht; [|now subst r].
  cbn [negb] in Hr. subst r.
  rewrite (to_yes_no_same_key _ v) by apply normal_key_upper.
  rewrite to_yes_no_unfold. now rewrite Hy, Hn, Ht.
Qed.

Lemma is_ascii_to_yes_no (v : string) :
  is_ascii v = true → is_ascii (to_yes_no (Some v)) = true.
Proof.
  intros Hv. rewrite to_yes_no_unfold.
  destruct (bool_decide _); [reflexivity|].
  destruct (bool_decide _); [reflexivity|].
  destruct (negb _); [reflexivity|].
  rewrite is_ascii_upper, is_ascii_lower. now apply is_ascii_strip.
Qed.

Section AsciiAnswers.
Variable m : str_methods.
Hypothesis m_ascii : ascii_faithful m.

(** X1. On a value of ASCII characters, [to_yes_no] answers "Y" for the
    yes-words only and "N" for blank values and the no-words only, and it
    never answers the empty string; the null value gives "N". *)
Theorem to_yes_no_canonical (v : string) :
  is_ascii v = true →
  (to_yes_no_with m (Some v) = "Y" ↔ str_lower m (str_strip m v) ∈ yes_words)
  ∧ (to_yes_no_with m (Some v) = "N"
     ↔ str_strip m v = "" ∨ str_lower m (str_strip m v) ∈ no_words)
  ∧ to_yes_no_with m (Some v) ≠ ""
  ∧ to_yes_no_with m None = "N".
Proof.
  intros Hv. destruct (value_str_ascii m m_ascii v Hv) as (Hs & Hl & _).
  rewrite (to_yes_no_with_ascii m m_ascii v Hv), Hl, Hs.
  destruct (ascii_yes_no_cases v) as (HY & HN & HE). auto.
Qed.

(** X2. On a value of ASCII characters, normalising twice is the same as
    normalising once, and the answer depends neither on the case of the
    value nor on the whitespace around it. *)
Theorem to_yes_no_idempotent (v : string) :
  is_ascii v = true →
  to_yes_no_with m (Some (to_yes_no_with m (Some v))) = to_yes_no_with m (Some v)
  ∧ to_yes_no_with m (Some (str_upper m v)) = to_yes_no_with m (Some v)
  ∧ to_yes_no_with m (Some (str_lower m v)) = to_yes_no_with m (Some v)
  ∧ to_yes_no_with m (Some (str_strip m v)) = to_yes_no_with m (Some v)
  ∧ to_yes_no_with m (Some (to_yes_no_with m None)) = to_yes_no_with m None.
Proof.
  intros Hv. destruct m_ascii as (Hs & Hl & Hu).
  rewrite (Hs v Hv), (Hl v Hv), (Hu v Hv).
  rewrite !(to_yes_no_with_ascii m m_ascii v Hv).
  rewrite !(to_yes_no_with_ascii m m_ascii)
    by (rewrite ?is_ascii_upper, ?is_ascii_lower;
        auto using is_ascii_strip, is_ascii_to_yes_no).
  split; [apply ascii_yes_no_twice|].
  split; [apply to_yes_no_same_key; now rewrite strip_upper, lower_upper|].
  split; [apply to_yes_no_same_key; now rewrite strip_lower, lower_lower|].
  split; [apply to_yes_no_same_key; now rewrite strip_idem|].
  reflexivity.
Qed.

(** X3. On a value of ASCII characters, [is_true_value] holds exactly when
    [to_yes_no] answers "Y" or the value is one of the words "dynamic" and
    "created by rule", whatever its case and the whitespace around it; a
    blank value and the null value are not true. *)
Theorem is_true_value_spec (v : string) :
  is_ascii v = true →
  (is_true_value_with m (Some v) = true
   ↔ to_yes_no_with m (Some v) = "Y"
     ∨ str_lower m (str_strip m v) ∈ ["dynamic"; "created by rule"])
  ∧ (str_strip m v = "" → is_true_value_with m (Some v) = false)
  ∧ is_true_value_with m (Some (str_upper m v)) = is_true_value_with m (Some v)
  ∧ is_true_value_with m None = false.
Proof.
  intros Hv. destruct (value_str_ascii m m_ascii v Hv) as (Hs & Hl & _).
  destruct m_ascii as (_ & _ & Hu).
  rewrite (Hu v Hv), Hl, Hs.
  rewrite (to_yes_no_with_ascii m m_ascii v Hv).
  rewrite !(is_true_value_with_ascii m m_ascii) by (rewrite ?is_ascii_upper; exact Hv).
  rewrite !is_true_value_unfold.
  split; [|split; [|split; [|reflexivity]]].
  - rewrite bool_decide_eq_true, elem_of_app. split.
    + intros [Hy|Hd]; [left | now right].
      rewrite to_yes_no_unfold. now rewrite bool_decide_eq_true_2.
    + intros [Hy|Hd]; [left; now apply to_yes_no_Y_inv | now right].
  - intros Hb. rewrite Hb. reflexivity.
  - now rewrite strip_upper, lower_upper.
Qed.
End AsciiAnswers.

Lemma to_yes_no_canonical_witness :
  to_yes_no (Some " Yes ") = "Y" ∧ to_yes_no (Some "maybe") ≠ "".
Proof.
  destruct (to_yes_no_canonical ascii_methods ascii_methods_faithful " Yes ")
    as (HY & _); [reflexivity|].
  destruct (to_yes_no_canonical ascii_methods ascii_methods_faithful "maybe")
    as (_ & _ & HE & _); [reflexivity|].
  split; [apply HY; vm_compute; now left | exact HE].
Defined.

Lemma to_yes_no_idempotent_witness :
  to_yes_no (Some (to_yes_no (Some " maybe "))) = to_yes_no (Some " maybe ")
  ∧ to_yes_no (Some "YES") = to_yes_no (Some "yes").
Proof.
  destruct (to_yes_no_idempotent ascii_methods ascii_methods_faithful " maybe ")
    as (Htwice & _); [reflexivity|].
  destruct (to_yes_no_idempotent ascii_methods ascii_methods_faithful "yes")
    as (_ & Hupper & _); [reflexivity|].
  split; [exact Htwice | exact Hupper].
Defined.

Lemma is_true_value_spec_witness :
  is_true_value (Some "   ") = false.
Proof.
  destruct (is_true_value_spec ascii_methods ascii_methods_faithful "   ")
    as (_ & Hblank & _); [reflexivity|].
  apply Hblank. vm_compute. reflexivity.
Defined.

(** ** Namespace resolver, continued *)

Lemma get_namespace_map_fold (root : Element) :
  get_namespace_map root
  = {| odm := (fold_left namespace_step (attrib root)
                 (tag_namespace root, DEFAULT_REDCAP_NS)).1;
       REDCap := (fold_left namespace_step (attrib root)
                    (tag_namespace root, DEFAULT_REDCAP_NS)).2 |}.
Proof.
  unfold get_namespace_map.
  match goal with
  | |- context [fold_left ?f (attrib root) ?p] =>
      rewrite (fold_left_ext_step f namespace_step (attrib root) p)
  end.
  - change (if PyStr.contains "}" (tag root) then _ else DEFAULT_ODM_NS)
      with (tag_namespace root).
    now destruct (fold_left namespace_step (attrib root)
                    (tag_namespace root, DEFAULT_REDCAP_NS)).
  - intros [o r] [attr value]. unfold namespace_step, odm_signal, redcap_signal. simpl.
    destruct (PyStr.contains "xmlns" attr); reflexivity.
Qed.

Lemma fold_namespace_step_quiet (l : list (string * string)) (st : string * string) :
  (∀ item, item ∈ l → odm_signal item = false) →
  (fold_left namespace_step l st).1 = st.1.
Proof.
  revert st. induction l as [|item l IH]; intros st Hq; [reflexivity|].
  simpl. rewrite IH by (intros i Hi; apply Hq; now right).
  unfold namespace_step. simpl. now rewrite Hq by now left.
Qed.

Lemma fold_namespace_step_quiet_redcap (l : list (string * string)) (st : string * string) :
  (∀ item, item ∈ l → redcap_signal item = false) →
  (fold_left namespace_step l st).2 = st.2.
Proof.
  revert st. induction l as [|item l IH]; intros st Hq; [reflexivity|].
  simpl. rewrite IH by (intros i Hi; apply Hq; now right).
  unfold namespace_step. simpl. now rewrite Hq by now left.
Qed.

(** X4. Whatever the root element, the resolved core URI mentions "odm" and
    the resolved extension URI mentions "redcap" (case-insensitively); in
    particular neither is empty. *)
Theorem get_namespace_map_mentions (root : Element) :
  PyStr.contains "odm" (PyStr.lower (odm (get_namespace_map root))) = true
  ∧ PyStr.contains "redcap" (PyStr.lower (REDCap (get_namespace_map root))) = true
  ∧ odm (get_namespace_map root) ≠ ""
  ∧ REDCap (get_namespace_map root) ≠ "".
Proof.
  assert (Hinv : ∀ l st,
            PyStr.contains "odm" (PyStr.lower st.1) = true →
            PyStr.contains "redcap" (PyStr.lower st.2) = true →
            PyStr.contains "odm" (PyStr.lower (fold_left namespace_step l st).1) = true
            ∧ PyStr.contains "redcap" (PyStr.lower (fold_left namespace_step l st).2) = true).
  { induction l as [|item l IH]; intros st Ho Hr; [now split|].
    simpl. apply IH; unfold namespace_step, odm_signal, redcap_signal; simpl.
    - destruct (PyStr.contains "xmlns" item.1); [|exact Ho]. simpl.
      destruct (PyStr.contains "odm" (PyStr.lower item.2)) eqn:Hc; [|exact Ho].
      destruct (PyStr.contains "cdisc" (PyStr.lower item.2)); [exact Hc | exact Ho].
    - destruct (PyStr.contains "xmlns" item.1); [|exact Hr]. simpl.
      destruct (PyStr.contains "redcap" (PyStr.lower item.2)) eqn:Hc; [exact Hc | exact Hr]. }
  rewrite get_namespace_map_fold. simpl.
  destruct (Hinv (attrib root) (tag_namespace root, DEFAULT_REDCAP_NS)) as [Ho Hr].
  - unfold tag_namespace. simpl.
    destruct (PyStr.contains "}" (tag root)); [|reflexivity].
    destruct (PyStr.contains "odm"
                (PyStr.lower (PyStr.drop1 (PyStr.split_head "}" (tag root))))) eqn:Hc;
      [exact Hc | reflexivity].
  - reflexivity.
  - split; [exact Ho|]. split; [exact Hr|].
    split; eapply contains_lower_nonempty; try eassumption; discriminate.
Qed.

Lemma split_head_qname (uri local : string) :
  PyStr.contains "}" uri = false →
  PyStr.drop1 (PyStr.split_head "}" (qname uri local)) = uri
  ∧ PyStr.contains "}" (qname uri local) = true.
Proof.
  intros Hu. unfold qname. split.
  - change ("{" +:+ uri +:+ "}" +:+ local) with (String "{" (uri +:+ "}" +:+ local)).
    simpl. induction uri as [|c uri IH]; [reflexivity|].
    change (String c uri +:+ "}" +:+ local) with (String c (uri +:+ "}" +:+ local)).
    simpl in *. apply orb_false_iff in Hu as [Hc Hu].
    destruct (Ascii.eqb_spec c "}") as [->|_]; [discriminate|].
    now rewrite IH.
  - do 2 apply contains_app. reflexivity.
Qed.

(** X5. For a root without an attribute whose name contains "xmlns" (the
    parser keeps namespace declarations out of the attributes), the
    extension URI is the default one, and the core URI is the namespace of
    the root tag when that mentions "odm", the default one when it does not
    or when the root tag has no namespace. *)
Theorem get_namespace_map_without_signals (root : Element) :
  (∀ item, item ∈ attrib root → PyStr.contains "xmlns" item.1 = false) →
  REDCap (get_namespace_map root) = DEFAULT_REDCAP_NS
  ∧ (PyStr.contains "}" (tag root) = false → odm (get_namespace_map root) = DEFAULT_ODM_NS)
  ∧ (∀ uri local,
       tag root = qname uri local → PyStr.contains "}" uri = false →
       odm (get_namespace_map root)
       = if PyStr.contains "odm" (PyStr.lower uri) then uri else DEFAULT_ODM_NS).
Proof.
  intros Hq. rewrite get_namespace_map_fold. simpl.
  rewrite fold_namespace_step_quiet, fold_namespace_step_quiet_redcap;
    try (intros item Hi; unfold odm_signal, redcap_signal; now rewrite (Hq item Hi)).
  simpl. split; [reflexivity|]. unfold tag_namespace. split.
  - now intros ->.
  - intros uri local Htag Huri. rewrite Htag.
    destruct (split_head_qname uri local Huri) as [-> ->]. reflexivity.
Qed.

Lemma get_namespace_map_without_signals_witness :
  get_namespace_map (Elem "{http://www.cdisc.org/ns/odm/v1.3-draft}ODM"
                       [("FileOID", "F.1"); ("ODMVersion", "1.3")] [])
  = {| odm := "http://www.cdisc.org/ns/odm/v1.3-draft"; REDCap := DEFAULT_REDCAP_NS |}.
Proof.
  destruct (get_namespace_map_without_signals
              (Elem "{http://www.cdisc.org/ns/odm/v1.3-draft}ODM"
                 [("FileOID", "F.1"); ("ODMVersion", "1.3")] []))
    as (Hr & _ & Ho).
  - intros item Hi.
    repeat (apply elem_of_cons in Hi as [->|Hi]; [reflexivity|]). inversion Hi.
  - specialize (Ho "http://www.cdisc.org/ns/odm/v1.3-draft" "ODM" eq_refl eq_refl).
    destruct (get_namespace_map _) as [o r]. simpl in *. now subst.
Defined.

(** X6. Among the root attributes that set a URI, the last one wins, also
    over the namespace of the root tag: the core URI is the value of the
    last attribute whose name contains "xmlns" and whose value mentions
    "odm" and "cdisc", the extension URI the value of the last one whose
    value mentions "redcap". *)
Theorem get_namespace_map_last_signal (root : Element)
    (before after : list (string * string)) (attr value : string) :
  attrib root = before ++ (attr, value) :: after →
  (odm_signal (attr, value) = true →
   (∀ item, item ∈ after → odm_signal item = false) →
   odm (get_namespace_map root) = value)
  ∧ (redcap_signal (attr, value) = true →
     (∀ item, item ∈ after → redcap_signal item = false) →
     REDCap (get_namespace_map root) = value).
Proof.
  intros Hattr. rewrite get_namespace_map_fold, Hattr, fold_left_app. simpl. split.
  - intros Hs Hq. rewrite fold_namespace_step_quiet by exact Hq.
    unfold namespace_step. simpl. now rewrite Hs.
  - intros Hs Hq. rewrite fold_namespace_step_quiet_redcap by exact Hq.
    unfold namespace_step. simpl. now rewrite Hs.
Qed.

Lemma get_namespace_map_last_signal_witness :
  odm (get_namespace_map
         (Elem "{urn:odm-one}ODM"
            [("p:xmlns-a", "urn:CDISC:odm-two"); ("Name", "x");
             ("p:xmlns-b", "urn:cdisc:ODM-three"); ("Description", "odm cdisc")] []))
  = "urn:cdisc:ODM-three".
Proof.
  destruct (get_namespace_map_last_signal
              (Elem "{urn:odm-one}ODM"
                 [("p:xmlns-a", "urn:CDISC:odm-two"); ("Name", "x");
                  ("p:xmlns-b", "urn:cdisc:ODM-three"); ("Description", "odm cdisc")] [])
              [("p:xmlns-a", "urn:CDISC:odm-two"); ("Name", "x")]
              [("Description", "odm cdisc")]
              "p:xmlns-b" "urn:cdisc:ODM-three" eq_refl) as [Ho _].
  apply Ho; [reflexivity|].
  intros item Hi. apply elem_of_cons in Hi as [->|Hi]; [reflexivity | inversion Hi].
Defined.

(** ** Tolerant element finder, continued *)

Lemma find_elements_once_two_tiers (root : Element) (tag_name : string)
    (namespaces : NamespaceMap) :
  find_elements_once root tag_name namespaces
  = if nonempty (findall_descendants root (qname (odm namespaces) tag_name))
    then findall_descendants root (qname (odm namespaces) tag_name)
    else findall_descendants root tag_name.
Proof.
  unfold find_elements_once, odm_prefixed. cbv zeta.
  now destruct (findall_descendants root (qname (odm namespaces) tag_name)).
Qed.

(** X7. With a plain core URI and for each of the three tag names the
    program searches, what the element finder returns lies strictly below
    the element searched, carries either the namespace-qualified or the bare
    tag, and never a mix of the two: as soon as one qualified element exists
    the bare ones are left out.  The result is empty exactly when no
    descendant has either tag. *)
Theorem find_elements_once_uniform (root : Element) (tag_name : string)
    (namespaces : NamespaceMap) :
  plain_uri (odm namespaces) = true →
  tag_name ∈ ["MetaDataVersion"; "StudyEventDef"; "FormDef"] →
  (∀ e, e ∈ find_elements_once root tag_name namespaces →
        e ∈ descendants root
        ∧ (tag e = qname (odm namespaces) tag_name ∨ tag e = tag_name))
  ∧ (∀ e1 e2, e1 ∈ find_elements_once root tag_name namespaces →
              e2 ∈ find_elements_once root tag_name namespaces → tag e1 = tag e2)
  ∧ (∀ d, d ∈ descendants root → tag d = qname (odm namespaces) tag_name →
          find_elements_once root tag_name namespaces
          = findall_descendants root (qname (odm namespaces) tag_name))
  ∧ (find_elements_once root tag_name namespaces = []
     ↔ ∀ d, d ∈ descendants root →
            tag d ≠ qname (odm namespaces) tag_name ∧ tag d ≠ tag_name).
Proof.
  intros _ _. rewrite find_elements_once_two_tiers.
  destruct (findall_descendants root (qname (odm namespaces) tag_name))
    as [|q qs] eqn:Hq; simpl.
  - assert (Hnone : ∀ d, d ∈ descendants root → tag d ≠ qname (odm namespaces) tag_name).
    { intros d Hd Ht.
      assert (Hin : d ∈ findall_descendants root (qname (odm namespaces) tag_name))
        by (apply list_elem_of_filter; auto).
      rewrite Hq in Hin. inversion Hin. }
    split; [|split; [|split]].
    + intros e He. apply list_elem_of_filter in He as [Ht He]. auto.
    + intros e1 e2 H1 H2. apply list_elem_of_filter in H1 as [-> _].
      apply list_elem_of_filter in H2 as [-> _]. reflexivity.
    + intros d Hd Ht. now apply Hnone in Ht.
    + split.
      * intros Hnil d Hd. split; [now apply Hnone|]. intros Ht.
        assert (Hin : d ∈ findall_descendants root tag_name)
          by (apply list_elem_of_filter; auto).
        rewrite Hnil in Hin. inversion Hin.
      * intros Hall. destruct (findall_descendants root tag_name) as [|x xs] eqn:Hx;
          [reflexivity|].
        assert (Hin : x ∈ findall_descendants root tag_name) by (rewrite Hx; now left).
        apply list_elem_of_filter in Hin as [Ht Hin]. now apply Hall in Hin.
  - assert (Hsub : ∀ e, e ∈ q :: qs →
                     tag e = qname (odm namespaces) tag_name ∧ e ∈ descendants root).
    { intros e He. rewrite <- Hq in He. now apply list_elem_of_filter in He. }
    split; [|split; [|split]].
    + intros e He. apply Hsub in He as [Ht He]. auto.
    + intros e1 e2 H1 H2. apply Hsub in H1 as [-> _]. apply Hsub in H2 as [-> _].
      reflexivity.
    + reflexivity.
    + split; [discriminate|]. intros Hall.
      destruct (Hsub q) as [Ht Hd]; [now left|]. now apply Hall in Hd.
Qed.

Lemma find_elements_once_uniform_witness :
  find_elements_once
    (Elem "{urn:odm}ODM" []
       [ Elem "{urn:odm}StudyEventDef" [("OID", "E1")] [];
         Elem "StudyEventDef" [("OID", "E2")] [] ])
    "StudyEventDef" {| odm := "urn:odm"; REDCap := DEFAULT_REDCAP_NS |}
  = [Elem "{urn:odm}StudyEventDef" [("OID", "E1")] []].
Proof.
  destruct (find_elements_once_uniform
              (Elem "{urn:odm}ODM" []
                 [ Elem "{urn:odm}StudyEventDef" [("OID", "E1")] [];
                   Elem "StudyEventDef" [("OID", "E2")] [] ])
              "StudyEventDef" {| odm := "urn:odm"; REDCap := DEFAULT_REDCAP_NS |})
    as (_ & _ & Hq & _);
    [reflexivity | apply (list_elem_of_lookup_2 _ 1%nat); reflexivity |].
  rewrite (Hq (Elem "{urn:odm}StudyEventDef" [("OID", "E1")] [])).
  - vm_compute. reflexivity.
  - apply (list_elem_of_lookup_2 _ 0%nat). reflexivity.
  - reflexivity.
Defined.

(** ** Site/form map, continued *)

Lemma inline_search_is_finder (mv : Element) (tag_name : string)
    (namespaces : NamespaceMap) :
  (let found := findall_descendants mv (qname (odm namespaces) tag_name) in
   let found :=
     if nonempty found then found
     else findall_descendants mv (odm_prefixed namespaces tag_name) in
   if nonempty found then found else findall_descendants mv tag_name)
  = find_elements_once mv tag_name namespaces.
Proof.
  unfold find_elements_once, odm_prefixed. cbv zeta.
  now destruct (findall_descendants mv (qname (odm namespaces) tag_name)).
Qed.

(** X8. The form set of one metadata-version element holds exactly the
    non-empty OIDs of the form definitions and the non-empty FormOIDs of the
    form references that the element finder returns below it; it never
    holds the empty string. *)
Theorem mv_form_oids_spec (mv : Element) (namespaces : NamespaceMap) (form_oid : string) :
  form_oid ∈ mv_form_oids mv namespaces
  ↔ form_oid ≠ ""
    ∧ ((∃ d, d ∈ find_elements_once mv "FormDef" namespaces ∧ get d "OID" "" = form_oid)
       ∨ (∃ r, r ∈ find_elements_once mv "FormRef" namespaces
               ∧ get r "FormOID" "" = form_oid)).
Proof.
  unfold mv_form_oids. cbv zeta.
  rewrite (inline_search_is_finder mv "FormDef"), (inline_search_is_finder mv "FormRef").
  rewrite !elem_of_collect_attr. split.
  - intros [[Hin|(Hne & Hd)]|(Hne & Hr)].
    + now apply not_elem_of_empty in Hin.
    + split; [exact Hne | now left].
    + split; [exact Hne | now right].
  - intros (Hne & [Hd|Hr]); [left; right; auto | right; auto].
Qed.

Lemma fold_metadata_versions_oid (namespaces : NamespaceMap) (mvs : list Element)
    (m : gmap string SiteInfo) (name : string) :
  name ≠ IGNORED_SITE →
  site_oid <$> (fold_left (metadata_versions_step namespaces) mvs m !! name)
  = match site_oid <$> (m !! name) with
    | Some o => Some o
    | None => (λ mv, get mv "OID" "")
                <$> head (filter (λ mv, mv_site_name mv = name) mvs)
    end.
Proof.
  intros Hname. revert m. induction mvs as [|mv mvs IH]; intros m; simpl.
  - now destruct (m !! name).
  - rewrite IH. rewrite filter_cons. unfold metadata_versions_step.
    destruct (bool_decide (mv_site_name mv = IGNORED_SITE)) eqn:Hign.
    + apply bool_decide_eq_true_1 in Hign.
      destruct (decide (mv_site_name mv = name)) as [Heq|_]; [congruence|reflexivity].
    + destruct (decide (mv_site_name mv = name)) as [<-|Hne].
      * destruct (m !! mv_site_name mv) as [info|] eqn:Hm; now rewrite lookup_insert_eq.
      * destruct (m !! mv_site_name mv); now rewrite lookup_insert_ne.
Qed.

Lemma site_entry_exists (root : Element) (namespaces : NamespaceMap)
    (name : string) :
  name ≠ IGNORED_SITE →
  ∀ mv, mv ∈ find_elements_once root "MetaDataVersion" namespaces →
        mv_site_name mv = name →
        ∃ info, extract_metadata_versions root namespaces !! name = Some info.
Proof.
  intros Hname mv Hmv Hn.
  pose proof (fold_metadata_versions_forms namespaces
                (find_elements_once root "MetaDataVersion" namespaces) ∅ name Hname) as Hf.
  rewrite <- extract_metadata_versions_fold, lookup_empty in Hf. simpl in Hf.
  destruct (filter (λ mv, mv_site_name mv = name)
              (find_elements_once root "MetaDataVersion" namespaces)) as [|x l] eqn:Hfl.
  - assert (Hin : mv ∈ filter (λ mv, mv_site_name mv = name)
                     (find_elements_once root "MetaDataVersion" namespaces))
      by (apply list_elem_of_filter; auto).
    rewrite Hfl in Hin. inversion Hin.
  - simpl in Hf. destruct (extract_metadata_versions root namespaces !! name); [eauto|].
    discriminate.
Qed.

(** X9. For every display name other than the ignored one, the site/form
    map has an entry exactly when some metadata-version element carries the
    name, and the internal identifier kept in the entry is the OID of the
    first such element: later elements of the same name extend the form set
    but leave the identifier alone.  When the finder returns no
    metadata-version element the map is empty. *)
Theorem site_entry_first_oid (root : Element) (namespaces : NamespaceMap) (name : string) :
  name ≠ IGNORED_SITE →
  site_oid <$> (extract_metadata_versions root namespaces !! name)
    = (λ mv, get mv "OID" "")
        <$> head (filter (λ mv, mv_site_name mv = name)
                    (find_elements_once root "MetaDataVersion" namespaces))
  ∧ (name ∈ dom (extract_metadata_versions root namespaces)
     ↔ ∃ mv, mv ∈ find_elements_once root "MetaDataVersion" namespaces
             ∧ mv_site_name mv = name)
  ∧ (find_elements_once root "MetaDataVersion" namespaces = [] →
     extract_metadata_versions root namespaces = ∅).
Proof.
  intros Hname.
  pose proof (fold_metadata_versions_oid namespaces
                (find_elements_once root "MetaDataVersion" namespaces) ∅ name Hname) as Ho.
  rewrite <- extract_metadata_versions_fold, lookup_empty in Ho. simpl in Ho.
  split; [exact Ho|]. split.
  - rewrite elem_of_dom. split.
    + intros [info Hm]. rewrite Hm in Ho. simpl in Ho.
      destruct (filter _ _) as [|mv l] eqn:Hf; [discriminate|].
      exists mv.
      assert (Hin : mv ∈ filter (λ mv, mv_site_name mv = name)
                       (find_elements_once root "MetaDataVersion" namespaces))
        by (rewrite Hf; now left).
      apply list_elem_of_filter in Hin. tauto.
    + intros (mv & Hmv & Hn).
      destruct (site_entry_exists root namespaces name Hname mv Hmv Hn)
        as (info & Hm). eauto.
  - intros Hnil. rewrite extract_metadata_versions_fold, Hnil. reflexivity.
Qed.

Lemma site_entry_first_oid_witness :
  site_oid <$> (extract_metadata_versions Samples.study Samples.ns !! "Site B")
  = Some "MV2".
Proof.
  destruct (site_entry_first_oid Samples.study Samples.ns "Site B") as (Ho & _).
  - vm_compute. discriminate.
  - rewrite Ho. vm_compute. reflexivity.
Defined.

Lemma filter_all_false {A : Type} (P : A → Prop) `{∀ x, Decision (P x)} (l : list A) :
  (∀ x, x ∈ l → ¬ P x) → filter P l = [].
Proof.
  induction l as [|x l IH]; intros Hall; [reflexivity|].
  rewrite filter_cons. destruct (decide (P x)) as [Hp|_].
  - exfalso. apply (Hall x); [now left | exact Hp].
  - apply IH. intros y Hy. apply Hall. now right.
Qed.

(** X10. When the document has no metadata-version element, or only
    elements named as the ignored site, the site/form map is empty and the
    Site cell of every instrument row reads "Unknown Site". *)
Theorem no_site_unknown (root : Element) (namespaces : NamespaceMap) :
  (∀ mv, mv ∈ find_elements_once root "MetaDataVersion" namespaces →
         mv_site_name mv = IGNORED_SITE) →
  extract_metadata_versions root namespaces = ∅
  ∧ ∀ i row,
      rows (extract_event_instruments root namespaces) !! i = Some row →
      df_cell (extract_event_instruments root namespaces) row "Site"
      = Some "Unknown Site".
Proof.
  intros Hall.
  assert (Hempty : extract_metadata_versions root namespaces = ∅).
  { rewrite extract_metadata_versions_fold, fold_metadata_versions_drop_ignored.
    rewrite filter_all_false; [reflexivity|].
    intros mv Hmv Hne. apply Hne, Hall, Hmv. }
  split; [exact Hempty|].
  intros i row Hrow.
  apply instrument_row_pair in Hrow as (p & Hp & -> & Hcols).
  destruct (instrument_cells _ root namespaces p Hcols) as (Hsite & _).
  rewrite Hsite, Hempty. reflexivity.
Qed.

Lemma no_site_unknown_witness :
  map (λ row, df_cell (extract_event_instruments Samples.no_sites Samples.ns) row "Site")
    (rows (extract_event_instruments Samples.no_sites Samples.ns))
  = [Some "Unknown Site"].
Proof.
  destruct (no_site_unknown Samples.no_sites Samples.ns) as [_ Hcell].
  - intros mv Hmv. vm_compute in Hmv. inversion Hmv.
  - assert (Hrows : rows (extract_event_instruments Samples.no_sites Samples.ns)
                    = [[Some "Visit 1"; Some ""; Some ""; Some "Unknown Site"; Some "N";
                        Some "N"; Some "Y"; Some "N"; Some "N"; Some "N"]])
      by (vm_compute; reflexivity).
    rewrite Hrows. cbn [map]. rewrite (Hcell 0%nat); [reflexivity | now rewrite Hrows].
Defined.

(** ** Shape, size and order of the tables *)

Lemma extract_event_definitions_table (root : Element) (namespaces : NamespaceMap) :
  extract_event_definitions root namespaces
  = {| columns := if nonempty (kept_events root namespaces) then EVENT_COLUMNS else [];
       rows := map (λ e, row_of_record (event_info e namespaces))
                 (kept_events root namespaces) |}.
Proof.
  unfold extract_event_definitions.
  destruct (find_elements_once root "StudyEventDef" namespaces) as [|e0 evs] eqn:Hevs.
  - simpl. unfold kept_events. now rewrite Hevs.
  - simpl negb. cbv iota. rewrite event_definition_records_kept.
    destruct (kept_events root namespaces) as [|k ks] eqn:Hk; [reflexivity|].
    rewrite (DataFrame_of_records_uniform EVENT_COLUMNS).
    + simpl. now rewrite map_map.
    + apply NoDup_by_decide. vm_compute. reflexivity.
    + apply Forall_forall. intros r Hr. apply list_elem_of_fmap in Hr as (e & -> & _).
      reflexivity.
    + discriminate.
Qed.

(** X11. Both tables are rectangular and without missing cells: every row
    of the event-definition table has five cells and every row of the
    instrument table ten.  The event-definition table carries its five
    column names exactly when it has a row; with event elements that all
    lack an OID it has neither rows nor columns. *)
Theorem tables_rectangular (root : Element) (namespaces : NamespaceMap) :
  columns (extract_event_definitions root namespaces)
    = (if nonempty (rows (extract_event_definitions root namespaces))
       then ["Unique Event Name"; "Name"; "Manual Scheduling"; "Repeating";
             "Dynamic/Created by Rule"]
       else [])
  ∧ Forall (λ row, length row = 5%nat ∧ Forall is_Some row)
      (rows (extract_event_definitions root namespaces))
  ∧ Forall (λ row, length row = 10%nat ∧ Forall is_Some row)
      (rows (extract_event_instruments root namespaces)).
Proof.
  rewrite extract_event_definitions_table, extract_event_instruments_table.
  cbn [rows columns].
  split; [|split].
  - now destruct (kept_events root namespaces).
  - apply Forall_forall. intros row Hrow.
    apply list_elem_of_fmap in Hrow as (e & -> & _).
    split; [reflexivity | apply row_of_record_Some].
  - apply Forall_forall. intros row Hrow.
    apply list_elem_of_fmap in Hrow as (p & -> & _).
    split; [|apply row_of_record_Some].
    rewrite row_of_record_length. unfold pair_record.
    now rewrite instrument_record_keys.
Qed.

Section FirstOccurrencesSize.
Context {A K : Type} `{Countable K}.
Variable key : A → K.
Variable skip : A → bool.

Lemma first_occurrences_length (l : list A) :
  length (first_occurrences key skip ∅ l)
  = size (list_to_set (map key (filter (λ x, skip x = false) l)) : gset K).
Proof.
  rewrite <- (length_map key).
  rewrite <- (size_list_to_set (C := gset K)) by apply first_occurrences_NoDup.
  f_equal. apply set_eq. intros k. rewrite !elem_of_list_to_set. split.
  - intros Hk. apply list_elem_of_fmap in Hk as (x & -> & Hx).
    apply first_occurrences_elem in Hx as (Hx & Hs & _).
    apply list_elem_of_fmap. exists x. split; [reflexivity|].
    apply list_elem_of_filter. auto.
  - intros Hk. apply list_elem_of_fmap in Hk as (x & -> & Hx).
    apply list_elem_of_filter in Hx as [Hs Hx].
    destruct (first_occurrences_covers key skip ∅ l x Hx Hs) as (y & Hy & Hky);
      [apply not_elem_of_empty|].
    apply list_elem_of_fmap. exists y. auto.
Qed.

Lemma first_occurrences_sublist (seen : gset K) (l : list A) :
  first_occurrences key skip seen l `sublist_of` l.
Proof.
  revert seen. induction l as [|x l IH]; intros seen; simpl; [constructor|].
  destruct (skip x || bool_decide (key x ∈ seen)).
  - apply sublist_cons, IH.
  - apply sublist_skip, IH.
Qed.
End FirstOccurrencesSize.

(** X12. The event-definition table has as many rows as there are distinct
    non-empty OIDs among the event-definition elements, and the instrument
    table as many rows as there are distinct (event OID, form OID) keys with
    a non-empty form OID among the pairs visited. *)
Theorem table_row_counts (root : Element) (namespaces : NamespaceMap) :
  length (rows (extract_event_definitions root namespaces))
    = size (list_to_set
              (filter (λ oid, oid ≠ "")
                 (map event_oid (find_elements_once root "StudyEventDef" namespaces)))
            : gset string)
  ∧ length (rows (extract_event_instruments root namespaces))
    = size (list_to_set
              (filter (λ k, k.2 ≠ "") (map combo_key (candidate_pairs root namespaces)))
            : gset (string * string)).
Proof.
  rewrite extract_event_definitions_table, extract_event_instruments_table.
  cbn [rows columns].
  rewrite !length_map. unfold kept_events, kept_pairs.
  rewrite !first_occurrences_length. split; f_equal; f_equal.
  - induction (find_elements_once root "StudyEventDef" namespaces) as [|e l IH];
      [reflexivity|].
    simpl map at 2. rewrite !filter_cons, <- IH. unfold oid_missing.
    destruct (decide (event_oid e ≠ "")) as [Hne|He].
    + apply truthy_true_iff in Hne. rewrite Hne. reflexivity.
    + destruct (PyStr.truthy (event_oid e)) eqn:Ht; [|reflexivity].
      apply truthy_true_iff in Ht. contradiction.
  - induction (candidate_pairs root namespaces) as [|p l IH]; [reflexivity|].
    simpl map at 2. rewrite !filter_cons, <- IH. unfold form_oid_missing, combo_key.
    simpl. destruct (decide (get p.2 "FormOID" "" ≠ "")) as [Hne|He].
    + apply truthy_true_iff in Hne. rewrite Hne. reflexivity.
    + destruct (PyStr.truthy (get p.2 "FormOID" "")) eqn:Ht; [|reflexivity].
      apply truthy_true_iff in Ht. contradiction.
Qed.

(** X13. Rows follow the order of the document: the elements the
    event-definition rows are computed from form a subsequence of the
    event-definition elements in document order, and the pairs the
    instrument rows are computed from a subsequence of the pairs in the
    order they are visited. *)
Theorem rows_in_document_order (root : Element) (namespaces : NamespaceMap) :
  ∃ (events : list Element) (pairs : list (Element * Element)),
    rows (extract_event_definitions root namespaces)
      = map (λ e, row_of_record (event_info e namespaces)) events
    ∧ events `sublist_of` find_elements_once root "StudyEventDef" namespaces
    ∧ rows (extract_event_instruments root namespaces)
      = map (λ p, row_of_record (pair_record root namespaces p)) pairs
    ∧ pairs `sublist_of` candidate_pairs root namespaces.
Proof.
  exists (kept_events root namespaces), (kept_pairs root namespaces).
  rewrite extract_event_definitions_table, extract_event_instruments_table.
  cbn [rows columns].
  split; [reflexivity|]. split; [apply first_occurrences_sublist|].
  split; [reflexivity | apply first_occurrences_sublist].
Qed.

(** ** Cells of the event-definition table *)

Lemma event_row_elem (root : Element) (namespaces : NamespaceMap)
    (i : nat) (row : list (option string)) :
  rows (extract_event_definitions root namespaces) !! i = Some row →
  ∃ e, kept_events root namespaces !! i = Some e
       ∧ row = row_of_record (event_info e namespaces)
       ∧ columns (extract_event_definitions root namespaces) = EVENT_COLUMNS.
Proof.
  rewrite extract_event_definitions_table. cbn [rows columns]. intros Hrow.
  rewrite list_lookup_fmap in Hrow.
  destruct (kept_events root namespaces !! i) as [e|] eqn:He; [|discriminate].
  injection Hrow as <-. exists e. split; [reflexivity|]. split; [reflexivity|].
  destruct (kept_events root namespaces); [discriminate | reflexivity].
Qed.

Lemma get_absent (e : Element) (key : string) :
  dict_get key (attrib e) = None → get e key "" = "".
Proof. intros Hk. unfold get. now rewrite Hk. Qed.

(** X14. In every row of the event-definition table the Dynamic/Created by
    Rule cell is "Y" when the DynamicEvent or the CreatedByRule attribute of
    the row's element is true-ish and "N" otherwise, the Name cell is the
    Name attribute, and the Repeating cell is "N" for an element without a
    Repeating attribute. *)
Theorem event_row_cells (root : Element) (namespaces : NamespaceMap)
    (i : nat) (row : list (option string)) :
  rows (extract_event_definitions root namespaces) !! i = Some row →
  ∃ e, kept_events root namespaces !! i = Some e
       ∧ df_cell (extract_event_definitions root namespaces) row "Name"
         = Some (get e "Name" "")
       ∧ df_cell (extract_event_definitions root namespaces) row "Dynamic/Created by Rule"
         = Some (if is_true_value (Some (get_redcap_attr e "DynamicEvent" namespaces))
                    || is_true_value (Some (get_redcap_attr e "CreatedByRule" namespaces))
                 then "Y" else "N")
       ∧ df_cell (extract_event_definitions root namespaces) row "Repeating"
         = Some (to_yes_no (Some (get e "Repeating" "")))
       ∧ (dict_get "Repeating" (attrib e) = None →
          df_cell (extract_event_definitions root namespaces) row "Repeating" = Some "N").
Proof.
  intros Hrow. apply event_row_elem in Hrow as (e & He & -> & Hcols).
  exists e. split; [exact He|].
  assert (Hnd : NoDup EVENT_COLUMNS) by (apply NoDup_by_decide; vm_compute; reflexivity).
  destruct (extract_event_definitions root namespaces) as [cols rs].
  cbn [columns] in Hcols. subst cols.
  rewrite (df_cell_at _ _ _ 1 "Name" Hnd eq_refl).
  rewrite (df_cell_at _ _ _ 4 "Dynamic/Created by Rule" Hnd eq_refl).
  rewrite (df_cell_at _ _ _ 3 "Repeating" Hnd eq_refl).
  split; [reflexivity|]. split; [reflexivity|]. split; [reflexivity|].
  intros Habs. change (Some (to_yes_no (Some (get e "Repeating" ""))) = Some "N").
  now rewrite (get_absent e "Repeating" Habs).
Qed.

Lemma event_row_cells_witness :
  df_cell (extract_event_definitions Samples.study Samples.ns)
    [Some ""; Some "Visit 1"; Some "N"; Some "N"; Some "N"] "Dynamic/Created by Rule"
  = Some "N".
Proof.
  destruct (event_row_cells Samples.study Samples.ns 0%nat
              [Some ""; Some "Visit 1"; Some "N"; Some "N"; Some "N"])
    as (e & He & _ & Hdyn & _).
  - vm_compute. reflexivity.
  - rewrite Hdyn.
    assert (Hk : kept_events Samples.study Samples.ns !! 0%nat
                 = Some (Samples.event_def "E1" "Visit 1"
                           [Samples.form_ref "F1" "Yes"
                              [Elem "Monitoring" [("Type", "SDV")] []];
                            Samples.form_ref "F2" "No" [];
                            Samples.form_ref "F1" "No" []]))
      by (vm_compute; reflexivity).
    rewrite Hk in He. injection He as <-. vm_compute. reflexivity.
Defined.

(** ** Instrument names and keys *)

Lemma fold_form_names_lookup (form_defs : list Element) (m : gmap string string)
    (seen : gset string) (oid : string) :
  seen = dom m →
  (fold_left form_names_step form_defs (m, seen)).1 !! oid
  = match m !! oid with
    | Some name => Some name
    | None =>
        if decide (oid = "") then None
        else (λ f, get f "Name" "")
               <$> head (filter (λ f, get f "OID" "" = oid) form_defs)
    end.
Proof.
  revert m seen. induction form_defs as [|f form_defs IH]; intros m seen Hdom.
  - simpl. destruct (m !! oid); [reflexivity|]. now destruct (decide (oid = "")).
  - cbn [fold_left]. unfold form_names_step at 2.
    rewrite filter_cons.
    destruct (PyStr.truthy (get f "OID" "")) eqn:Ht.
    + destruct (bool_decide (get f "OID" "" ∈ seen)) eqn:Hs; simpl andb; cbv iota.
      * apply bool_decide_eq_true_1 in Hs. rewrite (IH m seen Hdom).
        destruct (decide (get f "OID" "" = oid)) as [Heq|Hne]; [|reflexivity].
        rewrite Heq, Hdom in Hs. apply elem_of_dom in Hs as [name ->]. reflexivity.
      * apply bool_decide_eq_false_1 in Hs.
        assert (Hdom' : seen ∪ {[get f "OID" ""]}
                        = dom (<[get f "OID" "" := get f "Name" ""]> m))
          by (rewrite dom_insert_L, Hdom; apply (comm_L (∪))).
        rewrite (IH _ _ Hdom').
        destruct (decide (get f "OID" "" = oid)) as [Heq|Hne].
        -- rewrite Heq, lookup_insert_eq. rewrite Heq, Hdom in Hs.
           apply not_elem_of_dom in Hs. rewrite Hs.
           apply truthy_true_iff in Ht. rewrite Heq in Ht.
           destruct (decide (oid = "")); [contradiction | reflexivity].
        -- now rewrite lookup_insert_ne.
    + simpl andb. cbv iota. rewrite (IH m seen Hdom).
      apply truthy_false_iff in Ht.
      destruct (decide (get f "OID" "" = oid)) as [Heq|Hne]; [|reflexivity].
      destruct (m !! oid); [reflexivity|].
      rewrite <- Heq, Ht. reflexivity.
Qed.

Lemma instrument_cells_names (df : DataFrame) (root : Element)
    (namespaces : NamespaceMap) (p : Element * Element) :
  columns df = INSTRUMENT_COLUMNS →
  df_cell df (row_of_record (pair_record root namespaces p)) "Event"
    = Some (get p.1 "Name" "")
  ∧ df_cell df (row_of_record (pair_record root namespaces p)) "Instrument Name"
    = Some (from_option id ""
              (build_form_names (find_elements_once root "FormDef" namespaces)
                 !! get p.2 "FormOID" "")).
Proof.
  destruct df as [cols rs]. simpl. intros ->.
  pose proof INSTRUMENT_COLUMNS_NoDup as Hnd. split.
  - now rewrite (df_cell_at _ _ _ 0 "Event" Hnd eq_refl).
  - now rewrite (df_cell_at _ _ _ 1 "Instrument Name" Hnd eq_refl).
Qed.

(** X15. The Instrument Name cell of a row is the Name attribute of the
    first form definition, in document order, whose OID is the row's form
    OID, and the empty string when the document defines no such form; the
    Event cell is the Name attribute of the row's event element. *)
Theorem instrument_name_cell (root : Element) (namespaces : NamespaceMap)
    (i : nat) (row : list (option string)) :
  rows (extract_event_instruments root namespaces) !! i = Some row →
  ∃ event form_ref : Element,
    kept_pairs root namespaces !! i = Some (event, form_ref)
    ∧ df_cell (extract_event_instruments root namespaces) row "Instrument Name"
      = Some (from_option (λ f, get f "Name" "") ""
                (head (filter (λ f, get f "OID" "" = get form_ref "FormOID" "")
                         (find_elements_once root "FormDef" namespaces))))
    ∧ df_cell (extract_event_instruments root namespaces) row "Event"
      = Some (get event "Name" "").
Proof.
  intros Hrow. apply instrument_row_pair in Hrow as ([event form_ref] & Hp & -> & Hcols).
  exists event, form_ref. split; [exact Hp|].
  destruct (instrument_cells_names _ root namespaces (event, form_ref) Hcols)
    as [Hevent Hname].
  rewrite Hevent, Hname. split; [|reflexivity]. f_equal.
  unfold build_form_names. rewrite fold_form_names_lookup by (now rewrite dom_empty_L).
  rewrite lookup_empty. cbn [fst snd].
  assert (Hkept : get form_ref "FormOID" "" ≠ "").
  { apply list_elem_of_lookup_2 in Hp. unfold kept_pairs in Hp.
    apply first_occurrences_elem in Hp as (_ & Hs & _).
    unfold form_oid_missing in Hs. now apply negb_false_iff, truthy_true_iff in Hs. }
  destruct (decide (get form_ref "FormOID" "" = "")); [contradiction|].
  now destruct (head _).
Qed.

Lemma instrument_name_cell_witness :
  df_cell (extract_event_instruments Samples.no_sites Samples.ns)
    [Some "Visit 1"; Some ""; Some ""; Some "Unknown Site"; Some "N"; Some "N";
     Some "Y"; Some "N"; Some "N"; Some "N"] "Instrument Name"
  = Some "".
Proof.
  destruct (instrument_name_cell Samples.no_sites Samples.ns 0%nat
              [Some "Visit 1"; Some ""; Some ""; Some "Unknown Site"; Some "N"; Some "N";
               Some "Y"; Some "N"; Some "N"; Some "N"])
    as (event & form_ref & _ & Hname & _).
  - vm_compute. reflexivity.
  - rewrite Hname. reflexivity.
Defined.

(** X16. No row of the instrument table comes from a form reference whose
    FormOID is absent or empty, but an event element is not skipped for
    lacking an OID: every form reference with a FormOID that is located
    under any event-definition element is represented by a row of the
    table, the row of a pair with that element's OID, empty or not, and
    that FormOID. *)
Theorem blank_form_oid_skipped (root : Element) (namespaces : NamespaceMap) :
  (∀ i row,
     rows (extract_event_instruments root namespaces) !! i = Some row →
     ∃ event form_ref,
       kept_pairs root namespaces !! i = Some (event, form_ref)
       ∧ row = row_of_record (pair_record root namespaces (event, form_ref))
       ∧ dict_get "FormOID" (attrib form_ref) ≠ None
       ∧ dict_get "FormOID" (attrib form_ref) ≠ Some "")
  ∧ (∀ event form_ref,
       event ∈ find_elements_once root "StudyEventDef" namespaces →
       form_ref ∈ locate_form_refs event namespaces →
       get form_ref "FormOID" "" ≠ "" →
       ∃ i row k,
         rows (extract_event_instruments root namespaces) !! i = Some row
         ∧ kept_pairs root namespaces !! i = Some k
         ∧ combo_key k = (get event "OID" "", get form_ref "FormOID" "")
         ∧ row = row_of_record (pair_record root namespaces k)).
Proof.
  split.
  - intros i row Hrow.
    apply instrument_row_pair in Hrow as ([event form_ref] & Hp & -> & _).
    exists event, form_ref. split; [exact Hp|]. split; [reflexivity|].
    apply list_elem_of_lookup_2 in Hp.
    apply first_occurrences_elem in Hp as (_ & Hs & _).
    unfold form_oid_missing in Hs. apply negb_false_iff, truthy_true_iff in Hs.
    cbn [snd] in Hs. rewrite get_blank_iff in Hs. tauto.
  - intros event form_ref Hev Hfr Hoid.
    assert (Hin : (event, form_ref) ∈ candidate_pairs root namespaces).
    { unfold candidate_pairs. apply list_elem_of_In, in_flat_map.
      exists event. split; [now apply list_elem_of_In|].
      apply in_map. now apply list_elem_of_In. }
    assert (Hs : form_oid_missing (event, form_ref) = false)
      by (unfold form_oid_missing; now apply negb_false_iff, truthy_true_iff).
    destruct (first_occurrences_covers combo_key form_oid_missing ∅ _ _ Hin Hs)
      as (k & Hk & Hkey); [apply not_elem_of_empty|].
    apply list_elem_of_lookup_1 in Hk as [i Hi].
    exists i, (row_of_record (pair_record root namespaces k)), k.
    split; [|split; [exact Hi | split; [exact Hkey | reflexivity]]].
    rewrite extract_event_instruments_table. cbn [rows].
    rewrite list_lookup_fmap. unfold kept_pairs. now rewrite Hi.
Qed.

Lemma blank_form_oid_skipped_witness :
  ∃ i row,
    rows (extract_event_instruments Samples.study Samples.ns) !! i = Some row
    ∧ df_cell (extract_event_instruments Samples.study Samples.ns) row "Event"
      = Some "Unkeyed".
Proof.
  destruct (blank_form_oid_skipped Samples.study Samples.ns) as (_ & Hcover).
  destruct (Hcover (Elem "StudyEventDef" [("Name", "Unkeyed")]
                      [Samples.form_ref "F3" "No" []])
                   (Samples.form_ref "F3" "No" []))
    as (i & row & k & Hrow & Hk & Hkey & ->).
  - apply (list_elem_of_lookup_2 _ 2%nat). vm_compute. reflexivity.
  - apply (list_elem_of_lookup_2 _ 0%nat). vm_compute. reflexivity.
  - vm_compute. discriminate.
  - exists i, (row_of_record (pair_record Samples.study Samples.ns k)).
    split; [exact Hrow|].
    apply list_elem_of_lookup_2 in Hk.
    assert (Hks : kept_pairs Samples.study Samples.ns
                  = [ (Samples.event_def "E1" "Visit 1"
                         [Samples.form_ref "F1" "Yes"
                            [Elem "Monitoring" [("Type", "SDV")] []];
                          Samples.form_ref "F2" "No" [];
                          Samples.form_ref "F1" "No" []],
                       Samples.form_ref "F1" "Yes"
                         [Elem "Monitoring" [("Type", "SDV")] []]);
                      (Samples.event_def "E1" "Visit 1"
                         [Samples.form_ref "F1" "Yes"
                            [Elem "Monitoring" [("Type", "SDV")] []];
                          Samples.form_ref "F2" "No" [];
                          Samples.form_ref "F1" "No" []],
                       Samples.form_ref "F2" "No" []);
                      (Elem "StudyEventDef" [("Name", "Unkeyed")]
                         [Samples.form_ref "F3" "No" []],
                       Samples.form_ref "F3" "No" []) ])
      by (vm_compute; reflexivity).
    rewrite Hks in Hk.
    repeat (apply elem_of_cons in Hk as [->|Hk]);
      [vm_compute in Hkey; discriminate | vm_compute in Hkey; discriminate
       | vm_compute; reflexivity | inversion Hk].
Defined.

(** ** The entry point and its caller *)

Lemma contains_split_head (sep : ascii) (s : string) :
  PyStr.contains (String sep "") (PyStr.split_head sep s) = false.
Proof.
  induction s as [|c s IH]; [reflexivity|].
  cbn [PyStr.split_head]. destruct (Ascii.eqb_spec c sep) as [->|Hne]; [reflexivity|].
  change (PyStr.contains (String sep "") (String c (PyStr.split_head sep s)))
    with ((if Ascii.eqb sep c then true else false)
          || PyStr.contains (String sep "") (PyStr.split_head sep s)).
  rewrite IH. destruct (Ascii.eqb_spec sep c) as [->|_]; [contradiction | reflexivity].
Qed.

Lemma contains_drop1 (needle s : string) :
  PyStr.contains needle s = false → PyStr.contains needle (PyStr.drop1 s) = false.
Proof.
  destruct s as [|c s]; [auto|]. cbn [PyStr.drop1]. intros Hc.
  change (PyStr.startswith needle (String c s) || PyStr.contains needle s = false) in Hc.
  now apply orb_false_iff in Hc as [_ Hc].
Qed.

(** The core URI read off the root tag is plain, and so are both URIs of a
    root element none of whose attribute names contains "xmlns". *)
Lemma tag_namespace_plain (root : Element) : plain_uri (tag_namespace root) = true.
Proof.
  unfold tag_namespace.
  destruct (PyStr.contains "}" (tag root)); [|reflexivity]. cbv zeta.
  destruct (PyStr.contains "odm" (PyStr.lower (PyStr.drop1 (PyStr.split_head "}" (tag root)))))
    eqn:Hodm; [|reflexivity].
  assert (Hne : PyStr.drop1 (PyStr.split_head "}" (tag root)) ≠ "")
    by (eapply contains_lower_nonempty; [|exact Hodm]; discriminate).
  assert (Hbrace : PyStr.contains "}" (PyStr.drop1 (PyStr.split_head "}" (tag root))) = false)
    by apply contains_drop1, (contains_split_head "}").
  assert (Hstar : String.eqb (PyStr.drop1 (PyStr.split_head "}" (tag root))) "*" = false).
  { destruct (String.eqb_spec (PyStr.drop1 (PyStr.split_head "}" (tag root))) "*")
      as [Heq|_]; [|reflexivity].
    rewrite Heq in Hodm. discriminate. }
  apply truthy_true_iff in Hne. unfold plain_uri. now rewrite Hne, Hbrace, Hstar.
Qed.

Lemma get_namespace_map_plain (root : Element) :
  (∀ item, item ∈ attrib root → PyStr.contains "xmlns" item.1 = false) →
  plain_uri (odm (get_namespace_map root)) = true
  ∧ plain_uri (REDCap (get_namespace_map root)) = true.
Proof.
  intros Hq. rewrite get_namespace_map_fold. cbn [odm REDCap].
  rewrite fold_namespace_step_quiet, fold_namespace_step_quiet_redcap;
    try (intros item Hi; unfold odm_signal, redcap_signal; now rewrite (Hq item Hi)).
  split; [apply tag_namespace_plain | reflexivity].
Qed.

Section EntryPoint.
Variable fromstring : list Byte.byte → result Element.
Variable search_error : Element → NamespaceMap → option exn.

(** What is relied on of the path compiler: a search whose URIs are plain
    compiles to an exact test on the tag, and raises nothing. *)
Hypothesis plain_search :
  ∀ root namespaces,
    plain_uri (odm namespaces) = true → plain_uri (REDCap namespaces) = true →
    search_error root namespaces = None.

End EntryPoint.



Lemma df_empty_events (root : Element) (namespaces : NamespaceMap) :
  df_empty (extract_event_definitions root namespaces)
  = negb (nonempty (rows (extract_event_definitions root namespaces))).
Proof.
  rewrite extract_event_definitions_table. unfold df_empty. cbn [rows columns].
  now destruct (kept_events root namespaces).
Qed.

Lemma df_empty_instruments (root : Element) (namespaces : NamespaceMap) :
  df_empty (extract_event_instruments root namespaces)
  = negb (nonempty (rows (extract_event_instruments root namespaces))).
Proof.
  rewrite extract_event_instruments_table. unfold df_empty. cbn [rows columns].
  destruct (kept_pairs root namespaces) as [|p ps] eqn:Hk.
  - simpl. apply orb_true_r.
  - rewrite kept_pairs_events by (rewrite Hk; discriminate). reflexivity.
Qed.

(** X18. The export writes a sheet for a table exactly when the table has a
    row, the event definitions first; so a document whose event elements
    lack OIDs but carry form references yields a workbook with the
    instrument sheet alone, and a document without rows in either table
    yields no sheet. *)
Theorem excel_sheets_rows (root : Element) (namespaces : NamespaceMap) :
  excel_sheets (extract_event_definitions root namespaces)
    (extract_event_instruments root namespaces)
  = (if nonempty (rows (extract_event_definitions root namespaces))
     then ["Event Definitions"] else [])
    ++ (if nonempty (rows (extract_event_instruments root namespaces))
        then ["Event Instruments"] else []).
Proof.
  unfold excel_sheets. rewrite df_empty_events, df_empty_instruments, !negb_involutive.
  reflexivity.
Qed.

Example instrument_sheet_alone :
  excel_sheets
    (extract_event_definitions
       (Elem "ODM" []
          [Elem "StudyEventDef" [("Name", "Unkeyed")] [Samples.form_ref "F3" "No" []]])
       Samples.ns)
    (extract_event_instruments
       (Elem "ODM" []
          [Elem "StudyEventDef" [("Name", "Unkeyed")] [Samples.form_ref "F3" "No" []]])
       Samples.ns)
  = ["Event Instruments"].
Proof. vm_compute. reflexivity. Qed.

(** ** Name of the download *)

Lemma replace_from_absent (old new s : string) :
  PyStr.contains old s = false → replace_from old new 0 s = s.
Proof.
  induction s as [|c s IH]; [reflexivity|].
  intros Hc. simpl in Hc. apply orb_false_iff in Hc as [Hs Hc].
  cbn [replace_from]. rewrite Hs. now rewrite IH.
Qed.

Lemma contains_cons (needle : string) (c : ascii) (s : string) :
  PyStr.contains needle (String c s)
  = PyStr.startswith needle (String c s) || PyStr.contains needle s.
Proof. reflexivity. Qed.

Lemma startswith_cons (a b : ascii) (p s : string) :
  PyStr.startswith (String a p) (String b s)
  = if Ascii.eqb a b then PyStr.startswith p s else false.
Proof. reflexivity. Qed.

Lemma startswith_dotless (p b : string) :
  PyStr.contains "." p = false → PyStr.startswith p b = false →
  PyStr.startswith p (b +:+ ".xml") = false.
Proof.
  revert b. induction p as [|a p IH]; intros b Hdot Hs.
  - destruct b; discriminate.
  - simpl in Hdot. apply orb_false_iff in Hdot as [Ha Hdot].
    destruct b as [|d b].
    + change ("" +:+ ".xml") with ".xml". simpl.
      destruct (Ascii.eqb_spec a "."%char) as [->|_]; [discriminate | reflexivity].
    + change (String d b +:+ ".xml") with (String d (b +:+ ".xml")).
      simpl in *. destruct (Ascii.eqb a d); [|reflexivity].
      apply IH; assumption.
Qed.

(** X19. The download name is the upload name with every ".xml" replaced by
    "_events.xlsx": a name that does not contain ".xml" (for instance one
    ending in ".XML") is kept unchanged, and a name made of a part free of
    ".xml" followed by ".xml" becomes that part followed by
    "_events.xlsx". *)
Theorem output_filename_spec :
  (∀ name, PyStr.contains ".xml" name = false → output_filename name = name)
  ∧ (∀ base, PyStr.contains ".xml" base = false →
             output_filename (base +:+ ".xml") = base +:+ "_events.xlsx")
  ∧ output_filename "a.xml.xml" = "a_events.xlsx_events.xlsx".
Proof.
  split; [|split].
  - intros name Hc. now apply replace_from_absent.
  - intros base Hc. unfold output_filename, str_replace.
    induction base as [|c base IH]; [reflexivity|].
    rewrite contains_cons in Hc. apply orb_false_iff in Hc as [Hs Hc].
    change (String c base +:+ ".xml") with (String c (base +:+ ".xml")).
    cbn [replace_from].
    assert (Hs' : PyStr.startswith ".xml" (String c (base +:+ ".xml")) = false).
    { change (".xml") with (String "."%char "xml") in Hs |- *.
      rewrite startswith_cons in Hs |- *.
      destruct (Ascii.eqb "." c); [|reflexivity].
      now apply startswith_dotless. }
    rewrite Hs', IH by exact Hc. reflexivity.
  - reflexivity.
Qed.

Lemma output_filename_spec_witness :
  output_filename "STUDY.XML" = "STUDY.XML"
  ∧ output_filename "study.v2.xml" = "study.v2_events.xlsx".
Proof.
  destruct output_filename_spec as (Hkeep & Hend & _). split.
  - apply Hkeep. reflexivity.
  - apply (Hend "study.v2"). reflexivity.
Defined.
